(** * imap-mcp: the IMAP tool server [server.py]

    A shallow embedding of the six tool functions of [server.py]
    ([view_email], [delete_email], [move_email], [list_mailboxes],
    [check_unseen], [search_emails]) and of the helper [extract_body],
    together with the properties the specification states about them.

    The functions talk to an IMAP server through [imaplib] and parse
    messages with [email].  Both libraries are outside the repository:
    the server, as seen through [imaplib], is an arbitrary function from
    the commands issued so far to the answer of the last one (a
    [(status, data)] pair or a raised exception); the [email] parser and
    the transfer decoding of [get_payload(decode=True)] are parameters of
    the development. *)

From Stdlib Require Import Strings.String Strings.Ascii Strings.Byte.
From Stdlib Require Import List Bool Arith NArith.
Import ListNotations.
Set Warnings "-register-all".
Local Open Scope string_scope.
Local Open Scope list_scope.

(* ===================================================================== *)
(** ** Python values *)
(* ===================================================================== *)

(** A Python [bytes] object. *)
Definition bytes := list byte.

(** A Python [str] is represented by its UTF-8 encoding, so that [""] is
    the empty text and ASCII literals read as themselves. *)
Definition str := string.

Definition b_ (s : string) : bytes := list_byte_of_string s.

(** The exceptions the functions can meet; every one of them is a subclass
    of [Exception], hence caught by [except Exception]. *)
Inductive exn : Type :=
| PyException (msg : str)            (* raise Exception(msg) *)
| IMAPError (msg : str)              (* imaplib.IMAP4.error *)
| IMAPAbort (msg : str)              (* imaplib.IMAP4.abort *)
| OSError (msg : str)                (* socket and TLS failures *)
| UnboundLocalError (name : str)
| AttributeError
| TypeError
| IndexError
| UnicodeDecodeError.

Inductive result (A : Type) : Type :=
| Return (a : A)
| Raise (e : exn).
Arguments Return {A} a.
Arguments Raise {A} e.

(* --------------------------------------------------------------------- *)
(** *** [bytes.decode()]: strict UTF-8 *)

Definition in_range (b : byte) (lo hi : N) : bool :=
  (lo <=? Byte.to_N b)%N && (Byte.to_N b <=? hi)%N.

(** Well-formed UTF-8 as CPython's strict decoder accepts it: shortest
    forms only, no surrogates, nothing above U+10FFFF. *)
Fixpoint utf8_valid (bs : bytes) : bool :=
  match bs with
  | [] => true
  | b0 :: t0 =>
    if in_range b0 0 127 then utf8_valid t0
    else if in_range b0 194 223 then
      match t0 with
      | b1 :: t1 => in_range b1 128 191 && utf8_valid t1
      | _ => false
      end
    else if in_range b0 224 239 then
      match t0 with
      | b1 :: b2 :: t2 =>
        (if in_range b0 224 224 then in_range b1 160 191
         else if in_range b0 237 237 then in_range b1 128 159
         else in_range b1 128 191)
        && in_range b2 128 191 && utf8_valid t2
      | _ => false
      end
    else if in_range b0 240 244 then
      match t0 with
      | b1 :: b2 :: b3 :: t3 =>
        (if in_range b0 240 240 then in_range b1 144 191
         else if in_range b0 244 244 then in_range b1 128 143
         else in_range b1 128 191)
        && in_range b2 128 191 && in_range b3 128 191 && utf8_valid t3
      | _ => false
      end
    else false
  end.

(** [b.decode()] *)
Definition bytes_decode (b : bytes) : result str :=
  if utf8_valid b then Return (string_of_list_byte b) else Raise UnicodeDecodeError.

(* --------------------------------------------------------------------- *)
(** *** [str.split(sep)], [str.replace(" ", "")], [bytes.split()] *)

(** [s.split(sep)] for a non-empty [sep]: left to right, non-overlapping.
    [skip] counts the characters of a matched separator still to be
    dropped, [cur] is the piece being collected. *)
Fixpoint split_go (sep s : str) (skip : nat) (cur : str) : list str :=
  match s with
  | EmptyString => [cur]
  | String c s' =>
    match skip with
    | S k => split_go sep s' k cur
    | O =>
      if prefix sep s then cur :: split_go sep s' (String.length sep - 1) ""
      else split_go sep s' 0 (cur ++ String c "")%string
    end
  end.

Definition str_split (sep s : str) : list str := split_go sep s 0 "".

(** [s.replace(" ", "")] *)
Fixpoint remove_spaces (s : str) : str :=
  match s with
  | EmptyString => EmptyString
  | String c s' =>
    if Ascii.eqb c " " then remove_spaces s' else String c (remove_spaces s')
  end.

(** ASCII whitespace, as [bytes.split()] without argument sees it. *)
Definition is_space (b : byte) : bool :=
  match b with
  | x20 | x09 | x0a | x0b | x0c | x0d => true
  | _ => false
  end.

(** [b.split()]: maximal runs of non-whitespace bytes. [cur] is the run
    being collected, in reverse. *)
Fixpoint ws_split_go (b : bytes) (cur : bytes) : list bytes :=
  match b with
  | [] => match cur with [] => [] | _ => [rev cur] end
  | c :: b' =>
    if is_space c
    then match cur with
         | [] => ws_split_go b' []
         | _ => rev cur :: ws_split_go b' []
         end
    else ws_split_go b' (c :: cur)
  end.

Definition bytes_split (b : bytes) : list bytes := ws_split_go b [].

(* ===================================================================== *)
(** ** Messages of the [email] package and [extract_body] *)
(* ===================================================================== *)

(** A parsed [email.message.Message]: its headers, the value of
    [get_content_type()], and either a payload with its
    Content-Transfer-Encoding (a single part) or the list of its
    sub-messages ([is_multipart()]). *)
Inductive Message : Type :=
| Single (headers : list (str * str)) (ctype : str) (cte : str) (raw : bytes)
| Multipart (headers : list (str * str)) (ctype : str) (parts : list Message).

Definition is_multipart (m : Message) : bool :=
  match m with Single _ _ _ _ => false | Multipart _ _ _ => true end.

Definition get_content_type (m : Message) : str :=
  match m with Single _ c _ _ => c | Multipart _ c _ => c end.

Definition msg_headers (m : Message) : list (str * str) :=
  match m with Single h _ _ _ => h | Multipart h _ _ => h end.

(** [Message.walk()]: the message itself, then its parts depth first. *)
Fixpoint walk (m : Message) : list Message :=
  m :: match m with
       | Single _ _ _ _ => []
       | Multipart _ _ ps => flat_map walk ps
       end.

Definition ascii_lower (c : ascii) : ascii :=
  let n := nat_of_ascii c in
  if ((65 <=? n)%nat && (n <=? 90)%nat)%bool then ascii_of_nat (n + 32) else c.

Fixpoint str_lower (s : str) : str :=
  match s with
  | EmptyString => EmptyString
  | String c s' => String (ascii_lower c) (str_lower s')
  end.

(** [msg[name]]: the first header of that name, compared without case;
    [None] when there is none. *)
Fixpoint get_header (hs : list (str * str)) (name : str) : option str :=
  match hs with
  | [] => None
  | (k, v) :: hs' =>
    if String.eqb (str_lower k) (str_lower name) then Some v
    else get_header hs' name
  end.

Section ExtractBody.

(** [get_payload(decode=True)] on a single part: the payload with its
    Content-Transfer-Encoding undone.  The library never raises here
    (an undecodable payload comes back as it is). *)
Variable transfer_decode : str -> bytes -> bytes.

(** [part.get_payload(decode=True).decode()]: on a container
    [get_payload] is [None], and [None.decode()] is an
    [AttributeError]. *)
Definition part_text (p : Message) : result str :=
  match p with
  | Single _ _ cte raw => bytes_decode (transfer_decode cte raw)
  | Multipart _ _ _ => Raise AttributeError
  end.

(** The [for part in email_message.walk()] loop of [extract_body].  The
    locals [body] and [content_type] are threaded through; [content_type]
    is unbound until the first iteration. *)
Fixpoint walk_loop (ps : list Message) (body : str) (content_type : option str)
  : str * option str :=
  match ps with
  | [] => (body, content_type)
  | part :: rest =>
    let content_type := Some (get_content_type part) in
    match part_text part with
    | Return b =>
      if String.eqb b "" then walk_loop rest b content_type
      else (b, content_type)                     (* break *)
    | Raise _ => walk_loop rest body content_type  (* except: pass *)
    end
  end.

Definition extract_body (email_message : Message) : result (str * str) :=
  let body := "" in
  if is_multipart email_message then
    match walk_loop (walk email_message) body None with
    | (body, Some content_type) => Return (body, content_type)
    | (_, None) => Raise (UnboundLocalError "content_type")
    end
  else
    let content_type := get_content_type email_message in
    match part_text email_message with
    | Return body => Return (body, content_type)
    | Raise e => Raise e
    end.

End ExtractBody.

(* ===================================================================== *)
(** ** The IMAP session as [imaplib] shows it *)
(* ===================================================================== *)

(** One element of the [data] list [imaplib] returns next to the status:
    [None], a [bytes] line, or a [(header, literal)] pair of [bytes]. *)
Inductive resp_item : Type :=
| RNone
| RBytes (b : bytes)
| RTuple (a b : bytes).

(** A message set is passed as [str] by the tools' callers and as [bytes]
    when it comes from a search answer. *)
Inductive msg_set : Type :=
| IdStr (s : str)
| IdBytes (b : bytes).

(** The calls made on [imaplib], with their arguments. *)
Inductive command : Type :=
| CConnect (host : str)                             (* imaplib.IMAP4_SSL(host) *)
| CLogin (user password : str)                      (* mail.login *)
| CSelect (mailbox : str)                           (* mail.select *)
| CFetch (message_set : msg_set) (message_parts : str)  (* mail.fetch *)
| CStore (message_set : msg_set) (cmd flags : str)  (* mail.store *)
| CExpunge                                          (* mail.expunge *)
| CCopy (message_set : msg_set) (new_mailbox : str) (* mail.copy *)
| CList                                             (* mail.list *)
| CSearch (charset : option str) (criteria : list str)  (* mail.search *)
| CLogout.                                          (* mail.logout *)

(** What a call gives back: a [(status, data)] pair, or an exception. *)
Inductive response : Type :=
| Returns (status : str) (data : list resp_item)
| Raises (e : exn).

(** The remote server together with [imaplib]: the answer to the latest
    call, given all the calls of this invocation, latest first. *)
Definition server := list command -> response.

(** The object [imaplib.IMAP4_SSL(host)] builds. *)
Record IMAP4 : Type := { host : str }.

(** The state of one invocation: the calls made so far (latest first)
    and the local variable [mail], unbound until it is assigned. *)
Record frame : Type := { trace : list command; mail : option IMAP4 }.

Definition fresh : frame := {| trace := []; mail := None |}.

(** Computations that read and extend the frame and may raise; the frame
    survives a raise, so that an [except] clause continues from it. *)
Definition M (A : Type) : Type := frame -> result A * frame.

Definition ret {A} (a : A) : M A := fun f => (Return a, f).

Definition raise {A} (e : exn) : M A := fun f => (Raise e, f).

Definition bind {A B} (m : M A) (k : A -> M B) : M B :=
  fun f => match m f with
           | (Return a, f') => k a f'
           | (Raise e, f') => (Raise e, f')
           end.

Definition lift {A} (r : result A) : M A := fun f => (r, f).

(** [try: body  except Exception as e: handler e] *)
Definition try_except {A} (body : M A) (handler : exn -> M A) : M A :=
  fun f => match body f with
           | (Return a, f') => (Return a, f')
           | (Raise e, f') => handler e f'
           end.

Declare Scope py_scope.
Delimit Scope py_scope with py.
Notation "x <- m ;; k" := (bind m (fun x => k))
  (at level 61, m at next level, right associativity) : py_scope.
Notation "' pat <- m ;; k" := (bind m (fun x => match x with pat => k end))
  (at level 61, pat pattern, m at next level, right associativity) : py_scope.
Notation "m ;; k" := (bind m (fun _ => k))
  (at level 61, right associativity) : py_scope.
Local Open Scope py_scope.

(** [mail = value] *)
Definition set_mail (c : IMAP4) : M unit :=
  fun f => (Return tt, {| trace := trace f; mail := Some c |}).

(** Reading the local [mail]. *)
Definition get_mail : M IMAP4 :=
  fun f => match mail f with
           | Some c => (Return c, f)
           | None => (Raise (UnboundLocalError "mail"), f)
           end.

(* --------------------------------------------------------------------- *)
(** *** Results of the tools *)

Record ViewResult : Type :=
  { v_subject : option str; v_from : option str; v_body : str; v_type : str }.

Record DeleteResult : Type :=
  { d_status : str; d_email_id : str; d_mailbox : str }.

Record MoveResult : Type :=
  { m_status : str; m_email_id : str; m_target_mailbox : str }.

(** [{'Subject': ..., 'Date': ...}] *)
Record Summary : Type := { Subject : option str; Date : option str }.

(** The dict [result_subjects], in insertion order. *)
Definition dict := list (bytes * Summary).

Definition bytes_eq_dec : forall a b : bytes, {a = b} + {a <> b} :=
  list_eq_dec Byte.byte_eq_dec.

(** [d[k] = v]: a key already present keeps its place. *)
Fixpoint dict_set (d : dict) (k : bytes) (v : Summary) : dict :=
  match d with
  | [] => [(k, v)]
  | (k', v') :: d' =>
    if bytes_eq_dec k' k then (k', v) :: d' else (k', v') :: dict_set d' k v
  end.

Definition keys (d : dict) : list bytes := map fst d.

(** [search_emails] returns a list holding one sentence, or the dict. *)
Inductive SearchResult : Type :=
| NoMatch (l : list str)
| Matches (d : dict).

(* --------------------------------------------------------------------- *)
(** *** Indexing into [data] *)

(** The value of [data[0][1]]: [bytes] out of a pair, an [int] out of a
    [bytes] line. *)
Inductive pyval : Type :=
| VBytes (b : bytes)
| VInt (n : N).

(** [data[0]] *)
Definition index0 (data : list resp_item) : result resp_item :=
  match data with
  | [] => Raise IndexError
  | x :: _ => Return x
  end.

(** [item[1]] *)
Definition index1 (item : resp_item) : result pyval :=
  match item with
  | RNone => Raise TypeError
  | RBytes b => match nth_error b 1 with
                | Some c => Return (VInt (Byte.to_N c))
                | None => Raise IndexError
                end
  | RTuple _ b => Return (VBytes b)
  end.

(** [item.decode()]: only [bytes] has the method. *)
Definition item_decode (item : resp_item) : result str :=
  match item with
  | RBytes b => bytes_decode b
  | _ => Raise AttributeError
  end.

(** [item.split()] *)
Definition item_split (item : resp_item) : result (list bytes) :=
  match item with
  | RBytes b => Return (bytes_split b)
  | _ => Raise AttributeError
  end.

(** [l[1]] on a list of strings. *)
Definition list_index1 (l : list str) : result str :=
  match nth_error l 1 with
  | Some x => Return x
  | None => Raise IndexError
  end.

(** A list comprehension whose element expression may raise: elements
    are evaluated in order and the first exception ends it. *)
Fixpoint comprehension {A B} (f : A -> result B) (l : list A) : result (list B) :=
  match l with
  | [] => Return []
  | x :: l' =>
    match f x with
    | Raise e => Raise e
    | Return y =>
      match comprehension f l' with
      | Raise e => Raise e
      | Return ys => Return (y :: ys)
      end
    end
  end.

(** The separator of [list_mailboxes]: a quote, a dot, a quote. *)
Definition DOT_TOKEN : str :=
  String (ascii_of_nat 34) (String "." (String (ascii_of_nat 34) EmptyString)).

(** [item.decode().split('"."')[1].replace(" ","")] *)
Definition mailbox_of_item (item : resp_item) : result str :=
  match item_decode item with
  | Raise e => Raise e
  | Return line =>
    match list_index1 (str_split DOT_TOKEN line) with
    | Raise e => Raise e
    | Return name => Return (remove_spaces name)
    end
  end.

(* ===================================================================== *)
(** ** The tools *)
(* ===================================================================== *)

Section Tools.

(** The module globals read from the environment at start-up. *)
Variables SERVER USER PASSWORD : str.

(** [email.message_from_bytes] on a [bytes] argument; the parser is
    lenient and gives a message for any input. *)
Variable message_from_bytes : bytes -> Message.
Variable transfer_decode : str -> bytes -> bytes.

Variable srv : server.

(** One call on [imaplib]: recorded, then answered by the server. *)
Definition call (c : command) : M (str * list resp_item) :=
  fun f =>
    let f' := {| trace := c :: trace f; mail := mail f |} in
    match srv (trace f') with
    | Returns status data => (Return (status, data), f')
    | Raises e => (Raise e, f')
    end.

(** [imaplib.IMAP4_SSL(host)] *)
Definition IMAP4_SSL (h : str) : M IMAP4 :=
  call (CConnect h) ;; ret {| host := h |}.

(** [mail.<method>(...)]: the local [mail] is read first. *)
Definition mail_do (c : command) : M (str * list resp_item) :=
  get_mail ;; call c.

(** [email.message_from_bytes(v)]: an [int] has no [decode]. *)
Definition message_from (v : pyval) : result Message :=
  match v with
  | VBytes b => Return (message_from_bytes b)
  | VInt _ => Raise AttributeError
  end.

(** [email.message_from_bytes(data[0][1])] *)
Definition parse_fetched (data : list resp_item) : M Message :=
  item <- lift (index0 data) ;;
  raw_email <- lift (index1 item) ;;
  lift (message_from raw_email).

(** The handler shared by the six tools:
    [except Exception as e: mail.logout(); raise e]. *)
Definition cleanup {A} (e : exn) : M A :=
  mail_do CLogout ;; raise e.

Definition view_email (email_id mailbox : str) : M ViewResult :=
  try_except
    (c <- IMAP4_SSL SERVER ;; set_mail c ;;
     mail_do (CLogin USER PASSWORD) ;;
     mail_do (CSelect mailbox) ;;
     '(status, data) <- mail_do (CFetch (IdStr email_id) "(RFC822)") ;;
     if String.eqb status "OK" then
       email_message <- parse_fetched data ;;
       '(body, type) <- lift (extract_body transfer_decode email_message) ;;
       ret {| v_subject := get_header (msg_headers email_message) "Subject";
              v_from := get_header (msg_headers email_message) "From";
              v_body := body;
              v_type := type |}
     else
       raise (PyException ("Email " ++ email_id ++ " not found")%string))
    cleanup.

Definition delete_email (email_id mailbox : str) : M DeleteResult :=
  try_except
    (c <- IMAP4_SSL SERVER ;; set_mail c ;;
     mail_do (CLogin USER PASSWORD) ;;
     mail_do (CSelect mailbox) ;;
     mail_do (CStore (IdStr email_id) "+FLAGS" "(DELETED)") ;;
     mail_do CExpunge ;;
     mail_do CLogout ;;
     ret {| d_status := "success"; d_email_id := email_id; d_mailbox := mailbox |})
    cleanup.

Definition move_email (email_id target_mailbox : str) : M MoveResult :=
  try_except
    (c <- IMAP4_SSL SERVER ;; set_mail c ;;
     mail_do (CLogin USER PASSWORD) ;;
     mail_do (CSelect "INBOX") ;;
     mail_do (CCopy (IdStr email_id) target_mailbox) ;;
     mail_do (CStore (IdStr email_id) "+FLAGS" "(DELETED)") ;;
     mail_do CExpunge ;;
     mail_do CLogout ;;
     ret {| m_status := "success"; m_email_id := email_id;
            m_target_mailbox := target_mailbox |})
    cleanup.

Definition list_mailboxes : M (list str) :=
  try_except
    (c <- IMAP4_SSL SERVER ;; set_mail c ;;
     mail_do (CLogin USER PASSWORD) ;;
     '(status, data) <- mail_do CList ;;
     mailboxes <- lift (comprehension mailbox_of_item data) ;;
     mail_do CLogout ;;
     ret mailboxes)
    cleanup.

(** The loop shared, line for line, by [check_unseen] and
    [search_emails]:
    [for email_id in email_ids: status, data = mail.fetch(...); ...],
    with the dict [result_subjects] threaded through. *)
Fixpoint fetch_loop (email_ids : list bytes) (result_subjects : dict) : M dict :=
  match email_ids with
  | [] => ret result_subjects
  | email_id :: rest =>
    '(status, data) <- mail_do (CFetch (IdBytes email_id) "(RFC822)") ;;
    if String.eqb status "OK" then
      email_message <- parse_fetched data ;;
      fetch_loop rest
        (dict_set result_subjects email_id
           {| Subject := get_header (msg_headers email_message) "Subject";
              Date := get_header (msg_headers email_message) "Date" |})
    else fetch_loop rest result_subjects
  end.

(** [messages[0].split()] *)
Definition ids_of (data : list resp_item) : M (list bytes) :=
  item <- lift (index0 data) ;;
  lift (item_split item).

Definition check_unseen : M dict :=
  try_except
    (c <- IMAP4_SSL SERVER ;; set_mail c ;;
     mail_do (CLogin USER PASSWORD) ;;
     mail_do (CSelect "INBOX") ;;
     '(status, recent) <- mail_do (CSearch None ["UNSEEN"]) ;;
     email_ids <- ids_of recent ;;
     result_subjects <- fetch_loop email_ids [] ;;
     mail_do CLogout ;;
     ret result_subjects)
    cleanup.

Definition search_emails (criterion value mailbox : str) : M SearchResult :=
  try_except
    (c <- IMAP4_SSL SERVER ;; set_mail c ;;
     mail_do (CLogin USER PASSWORD) ;;
     mail_do (CSelect mailbox) ;;
     '(status, messages) <- mail_do (CSearch None [criterion; value]) ;;
     if negb (String.eqb status "OK") then
       ret (NoMatch ["No matching emails found."])
     else
       email_ids <- ids_of messages ;;
       result_subjects <- fetch_loop email_ids [] ;;
       mail_do CLogout ;;
       ret (Matches result_subjects))
    cleanup.

(** One invocation of a tool: a fresh frame, its result and the calls
    it made in the order they were made. *)
Definition outcome {A} (tool : M A) : result A := fst (tool fresh).
Definition calls {A} (tool : M A) : list command := rev (trace (snd (tool fresh))).

End Tools.

(** How often a tool attempted to connect and how often it logged out. *)
Definition is_connect (c : command) : bool :=
  match c with CConnect _ => true | _ => false end.
Definition is_logout (c : command) : bool :=
  match c with CLogout => true | _ => false end.
Definition connects (cs : list command) : nat := length (filter is_connect cs).
Definition logouts (cs : list command) : nat := length (filter is_logout cs).

(* ===================================================================== *)
(** ** Vocabulary of the statements *)
(* ===================================================================== *)

(** The call whose history is [h] comes back with a [(status, data)]
    pair instead of raising. *)
Definition answers (srv : server) (h : list command) : bool :=
  match srv h with Returns _ _ => true | Raises _ => false end.

(** The history once connect, login and select have been called. *)
Definition opened (SERVER USER PASSWORD mailbox : str) : list command :=
  [CSelect mailbox; CLogin USER PASSWORD; CConnect SERVER].

(** Connect, login and select all come back. *)
Definition session_opens (SERVER USER PASSWORD : str) (srv : server) (mailbox : str) : bool :=
  answers srv [CConnect SERVER]
  && answers srv [CLogin USER PASSWORD; CConnect SERVER]
  && answers srv (opened SERVER USER PASSWORD mailbox).

(** No call ever raises, whatever status it reports. *)
Definition never_raises (srv : server) : Prop :=
  forall h, answers srv h = true.

(** A fetch that reports [OK] carries the message as a
    [(header, literal)] pair in front of its data. *)
Definition ok_fetch_carries_message (srv : server) : Prop :=
  forall h ids parts data,
    srv (CFetch ids parts :: h) = Returns "OK" data ->
    exists a b rest, data = RTuple a b :: rest.

(** A search that comes back carries the line of matching ids. *)
Definition search_carries_ids (srv : server) : Prop :=
  forall h charset criteria status data,
    srv (CSearch charset criteria :: h) = Returns status data ->
    exists line rest, data = RBytes line :: rest.

(** Among the calls [cs] of an invocation, in the order made, there is a
    fetch of [id] that the server answered with status [OK]. *)
Definition fetch_reported_ok (srv : server) (cs : list command) (id : bytes) : Prop :=
  exists before after data,
    cs = before ++ CFetch (IdBytes id) "(RFC822)" :: after /\
    srv (CFetch (IdBytes id) "(RFC822)" :: rev before) = Returns "OK" data.

(** The fetch the loop of [check_unseen] and [search_emails] issues for
    one id. *)
Definition fetch_cmd (id : bytes) : command := CFetch (IdBytes id) "(RFC822)".

(** The calls of [check_unseen] or [search_emails] when nothing stops
    them: the opening calls, the search, one fetch per id, the logout. *)
Definition summary_calls (SERVER USER PASSWORD mailbox : str)
           (criteria : list str) (ids : list bytes) : list command :=
  [CConnect SERVER; CLogin USER PASSWORD; CSelect mailbox; CSearch None criteria]
    ++ map fetch_cmd ids ++ [CLogout].

(** A part gives no text: decoding it raises, or gives [""]. *)
Definition gives_no_text (transfer_decode : str -> bytes -> bytes) (p : Message) : Prop :=
  part_text transfer_decode p = Return "" \/
  exists e, part_text transfer_decode p = Raise e.

(** The message data items of a FETCH that ask for headers only
    (RFC 3501, 6.4.5): the envelope, the header, or chosen header fields.
    [RFC822], [RFC822.TEXT], [BODY[]] and [BODY[TEXT]] carry the body. *)
Definition headers_only (message_parts : str) : bool :=
  String.eqb message_parts "(ENVELOPE)"
  || String.eqb message_parts "(RFC822.HEADER)"
  || prefix "(BODY[HEADER" message_parts
  || prefix "(BODY.PEEK[HEADER" message_parts.

Definition fetches_headers_only (c : command) : bool :=
  match c with
  | CFetch _ message_parts => headers_only message_parts
  | _ => true
  end.

(** The double quote, and a string between double quotes. *)
Definition QUOTE : ascii := ascii_of_nat 34.
Definition quoted (s : str) : str := String QUOTE (s ++ String QUOTE "")%string.

(** No double quote occurs in [s]. *)
Fixpoint quote_free (s : str) : bool :=
  match s with
  | EmptyString => true
  | String c s' => negb (Ascii.eqb c QUOTE) && quote_free s'
  end.

(** The separator [DOT_TOKEN] occurs nowhere in [s]. *)
Fixpoint token_free (s : str) : bool :=
  match s with
  | EmptyString => true
  | String _ s' => negb (prefix DOT_TOKEN s) && token_free s'
  end.

(** A LIST line: attributes, the separator, and the rest of the line. *)
Definition list_line (attrs rest : str) : resp_item :=
  RBytes (list_byte_of_string (attrs ++ DOT_TOKEN ++ rest)%string).

(** The LIST line of a mailbox [name] on a server whose hierarchy
    delimiter is the dot: the attributes, the separator, a space and the
    name between double quotes. *)
Definition listing (entry : str * str) : resp_item :=
  list_line (fst entry) (" " ++ quoted (snd entry))%string.

(** Such a line is well framed when neither the attributes nor the name
    hold a double quote, the name is not a lone dot, and the line is
    UTF-8. *)
Definition well_framed (entry : str * str) : Prop :=
  quote_free (fst entry) = true /\
  quote_free (snd entry) = true /\
  snd entry <> "." /\
  utf8_valid (list_byte_of_string
                (fst entry ++ DOT_TOKEN ++ " " ++ quoted (snd entry))%string) = true.

(* ===================================================================== *)
(** ** Sample servers and messages *)
(* ===================================================================== *)

Definition HOST : str := "imap.example.org".
Definition ALICE : str := "alice".
Definition SECRET : str := "hunter2".

(** A parser standing for [email.message_from_bytes] in the examples:
    fixed headers, the input as a 7bit text/plain payload. *)
Definition sample_parser (raw : bytes) : Message :=
  Single [("Subject", "Hello"); ("From", "bob@example.org");
          ("Date", "Mon, 2 Nov 2026 10:00:00 +0000")]
         "text/plain" "7bit" raw.

(** Transfer decoding of 7bit and 8bit payloads: nothing to undo. *)
Definition identity_decode (cte : str) (raw : bytes) : bytes := raw.

(** The line [(\HasNoChildren) "." "INBOX"]. *)
Definition inbox_entry : str * str := ("(\HasNoChildren) ", "INBOX").
Definition inbox_line : resp_item := listing inbox_entry.

(** The line [(\HasChildren) "." "Sent Items"]. *)
Definition sent_entry : str * str := ("(\HasChildren) ", "Sent Items").

(** A server with these two mailboxes. *)
Definition two_mailboxes : server :=
  fun h =>
    match h with
    | CList :: _ => Returns "OK" (map listing [inbox_entry; sent_entry])
    | _ => Returns "OK" []
    end.

(** A server that accepts everything: two unseen messages, one mailbox. *)
Definition friendly : server :=
  fun h =>
    match h with
    | CFetch _ _ :: _ =>
      Returns "OK" [RTuple (b_ "1 (RFC822 {5}") (b_ "hello"); RBytes (b_ ")")]
    | CSearch _ _ :: _ => Returns "OK" [RBytes (b_ "1 2")]
    | CList :: _ => Returns "OK" [inbox_line]
    | _ => Returns "OK" []
    end.

(** The host cannot be reached: the constructor raises. *)
Definition unreachable : server :=
  fun h =>
    match h with
    | CConnect _ :: _ => Raises (OSError "Connection refused")
    | _ => Returns "OK" []
    end.

(** The target mailbox of a copy does not exist: COPY is answered [NO]. *)
Definition no_such_target : server :=
  fun h =>
    match h with
    | CCopy _ _ :: _ => Returns "NO" [RBytes (b_ "[TRYCREATE] Mailbox does not exist")]
    | _ => Returns "OK" []
    end.

(** Every fetch and every search is answered [NO]. *)
Definition refusing : server :=
  fun h =>
    match h with
    | CFetch _ _ :: _ => Returns "NO" [RBytes (b_ "No such message")]
    | CSearch _ _ :: _ => Returns "NO" [RBytes (b_ "Invalid search")]
    | _ => Returns "OK" []
    end.

(** The message set names message [n]. *)
Definition names_message (ids : msg_set) (n : str) : bool :=
  match ids with
  | IdStr s => String.eqb s n
  | IdBytes b => String.eqb (string_of_list_byte b) n
  end.

(** Two matches; the fetch of message 2 is answered [NO]. *)
Definition one_vanished : server :=
  fun h =>
    match h with
    | CFetch ids _ :: _ =>
      if names_message ids "2"
      then Returns "NO" [RBytes (b_ "No such message")]
      else Returns "OK" [RTuple (b_ "1 (RFC822 {5}") (b_ "hello"); RBytes (b_ ")")]
    | CSearch _ _ :: _ => Returns "OK" [RBytes (b_ "1 2")]
    | _ => Returns "OK" []
    end.

(** A multipart/mixed message: an empty text part, an attachment that is
    not UTF-8, a text part, an HTML part. *)
Definition four_parts : Message :=
  Multipart [("Subject", "Report")] "multipart/mixed"
    [ Single [] "text/plain" "7bit" [];
      Single [] "application/octet-stream" "8bit" [xff; xfe];
      Single [] "text/plain" "7bit" (b_ "See attachment.");
      Single [] "text/html" "7bit" (b_ "<p>See attachment.</p>") ].

(** A multipart/mixed message whose first part is a multipart/alternative
    container holding the text. *)
Definition nested_parts : Message :=
  Multipart [("Subject", "Minutes")] "multipart/mixed"
    [ Multipart [] "multipart/alternative"
        [ Single [] "text/plain" "7bit" (b_ "Minutes attached.");
          Single [] "text/html" "7bit" (b_ "<p>Minutes attached.</p>") ];
      Single [] "application/pdf" "8bit" (b_ "%PDF-1.7") ].

(** A multipart message none of whose parts gives text. *)
Definition no_text_parts : Message :=
  Multipart [] "multipart/mixed"
    [ Single [] "text/plain" "7bit" [];
      Single [] "image/png" "8bit" [x89; x50; xff] ].

(* ===================================================================== *)
(** ** Start-up of the module *)
(* ===================================================================== *)

(** What importing [server.py] comes to: the three globals are bound and
    the tools are served, or a [ValueError] ends the import. *)
Inductive startup : Type :=
| Serving (USER PASSWORD SERVER : str)
| ValueError (msg : str).

(** [not v] for the value of [os.getenv]: [None] and the empty text are
    both falsy. *)
Definition falsy (v : option str) : bool :=
  match v with
  | None => true
  | Some s => String.eqb s ""
  end.

(** The text of a value that passed the test. *)
Definition text_of (v : option str) : str :=
  match v with Some s => s | None => "" end.

(** Lines 8 to 16 of [server.py]: the three reads of the environment,
    then the three tests in the order USER, PASSWORD, SERVER. *)
Definition module_start (getenv : str -> option str) : startup :=
  let USER := getenv "IMAP_USER" in
  let PASSWORD := getenv "IMAP_PASSWORD" in
  let SERVER := getenv "IMAP_SERVER" in
  if falsy USER then ValueError "IMAP_USER is not set or is empty"
  else if falsy PASSWORD then ValueError "IMAP_PASSWORD is not set or is empty"
  else if falsy SERVER then ValueError "IMAP_SERVER is not set or is empty"
  else Serving (text_of USER) (text_of PASSWORD) (text_of SERVER).

(* ===================================================================== *)
(** ** Further vocabulary *)
(* ===================================================================== *)

(** The calls that change a mailbox. *)
Definition is_mutation (c : command) : bool :=
  match c with
  | CStore _ _ _ | CExpunge | CCopy _ _ => true
  | _ => false
  end.

(** No space occurs in [s]. *)
Fixpoint space_free (s : str) : bool :=
  match s with
  | EmptyString => true
  | String c s' => negb (Ascii.eqb c " ") && space_free s'
  end.

(** The value [fetch_loop] stores for a message. *)
Definition summary_of (m : Message) : Summary :=
  {| Subject := get_header (msg_headers m) "Subject";
     Date := get_header (msg_headers m) "Date" |}.

(** Among the calls [cs] of an invocation there is a fetch of [id] that
    the server answered [OK] with a message whose summary is [v]. *)
Definition entry_fetched (message_from_bytes : bytes -> Message) (srv : server)
           (cs : list command) (id : bytes) (v : Summary) : Prop :=
  exists before after a b rest,
    cs = before ++ fetch_cmd id :: after /\
    srv (fetch_cmd id :: rev before) = Returns "OK" (RTuple a b :: rest) /\
    v = summary_of (message_from_bytes b).

(** The calls of a tool up to the point where the session is open. *)
Definition opening (SERVER USER PASSWORD mailbox : str) : list command :=
  [CConnect SERVER; CLogin USER PASSWORD; CSelect mailbox].

(* --------------------------------------------------------------------- *)
(** *** Further sample servers *)

(** An environment with the three settings. *)
Definition full_env (name : str) : option str :=
  if String.eqb name "IMAP_USER" then Some ALICE
  else if String.eqb name "IMAP_PASSWORD" then Some SECRET
  else if String.eqb name "IMAP_SERVER" then Some HOST
  else None.

(** The password is rejected: [mail.login] raises. *)
Definition wrong_password : server :=
  fun h =>
    match h with
    | CLogin _ _ :: _ => Raises (IMAPError "[AUTHENTICATIONFAILED] Invalid credentials")
    | _ => Returns "OK" []
    end.

(** The STORE is answered [NO]. *)
Definition store_refused : server :=
  fun h =>
    match h with
    | CStore _ _ _ :: _ => Returns "NO" [RBytes (b_ "Mailbox is read-only")]
    | _ => Returns "OK" []
    end.

(** The connection drops at the first logout; a second one goes through. *)
Definition drops_at_logout : server :=
  fun h =>
    match h with
    | CLogout :: h' =>
      if existsb is_logout h' then Returns "BYE" []
      else Raises (IMAPAbort "socket error: EOF")
    | _ => Returns "OK" []
    end.

(** A server whose hierarchy delimiter is the slash. *)
Definition slash_delimiter : server :=
  fun h =>
    match h with
    | CList :: _ =>
      Returns "OK" [RBytes (b_ ("(\HasNoChildren) " ++ quoted "/" ++ " " ++ quoted "INBOX")%string)]
    | _ => Returns "OK" []
    end.

(** Nothing matches: the search line is empty. *)
Definition nothing_matches : server :=
  fun h =>
    match h with
    | CSearch _ _ :: _ => Returns "OK" [RBytes []]
    | _ => Returns "OK" []
    end.

(** The fetch of a message that is not there: [OK] with [None] as data,
    which is what [imaplib] gives when no FETCH response came. *)
Definition absent_message : server :=
  fun h =>
    match h with
    | CFetch _ _ :: _ => Returns "OK" [RNone]
    | _ => Returns "OK" []
    end.

(** A message whose text is Latin-1, not UTF-8. *)
Definition latin1_message : server :=
  fun h =>
    match h with
    | CFetch _ _ :: _ => Returns "OK" [RTuple (b_ "1 (RFC822 {4}") [x63; x61; x66; xe9]]
    | _ => Returns "OK" []
    end.

(** The mailbox is read-only: [mail.store] raises. *)
Definition store_fails : server :=
  fun h =>
    match h with
    | CStore _ _ _ :: _ => Raises (IMAPError "STORE command error: BAD [b'Read-only']")
    | _ => Returns "OK" []
    end.

(** No SEARCH response reaches [imaplib]: the data is [[None]]. *)
Definition no_search_response : server :=
  fun h =>
    match h with
    | CSearch _ _ :: _ => Returns "OK" [RNone]
    | _ => Returns "OK" []
    end.




(** The search line names message 1 twice. *)
Definition repeated_id : server :=
  fun h =>
    match h with
    | CFetch _ _ :: _ =>
      Returns "OK" [RTuple (b_ "1 (RFC822 {5}") (b_ "hello"); RBytes (b_ ")")]
    | CSearch _ _ :: _ => Returns "OK" [RBytes (b_ "1 1")]
    | _ => Returns "OK" []
    end.


(* ===================================================================== *)
(** ** Proof tools *)
(* ===================================================================== *)

Set Warnings "-notation-for-abbreviation".

(** Open a tool up into the calls it makes. *)
Ltac unfold_tool :=
  unfold outcome, calls, view_email, delete_email, move_email, list_mailboxes,
    check_unseen, search_emails, cleanup, mail_do, IMAP4_SSL, parse_fetched, ids_of,
    try_except, bind, call, set_mail, get_mail, ret, raise, lift, fresh;
  cbn [trace mail fst snd].

(** Case analysis on the next thing the run depends on. *)
Ltac next_case :=
  match goal with
  | |- context [let (_, _) := ?x in _] => is_var x; destruct x
  | |- context [match ?srv ?h with Returns _ _ => _ | Raises _ => _ end] =>
    destruct (srv h) eqn:?
  | |- context [if ?b then _ else _] => destruct b eqn:?
  | |- context [match ?x with Return _ => _ | Raise _ => _ end] => destruct x eqn:?
  | |- context [let (_, _) := ?x in _] => destruct x eqn:?
  end; cbn [trace mail fst snd].

(** Follow the run along the answers that are known. *)
Ltac run_known :=
  repeat match goal with
         | H : ?srv ?h = Returns _ _ |- context [?srv ?h] =>
           rewrite H; cbn [trace mail fst snd]
         | H : ?srv ?h = Raises _ |- context [?srv ?h] =>
           rewrite H; cbn [trace mail fst snd]
         end.

Lemma answers_returns (srv : server) (h : list command) :
  answers srv h = true -> exists status data, srv h = Returns status data.
Proof. unfold answers. destruct (srv h); [eauto | discriminate]. Qed.

Lemma session_opens_returns (SERVER USER PASSWORD : str) (srv : server) (mailbox : str) :
  session_opens SERVER USER PASSWORD srv mailbox = true ->
  (exists s d, srv [CConnect SERVER] = Returns s d) /\
  (exists s d, srv [CLogin USER PASSWORD; CConnect SERVER] = Returns s d) /\
  (exists s d, srv (opened SERVER USER PASSWORD mailbox) = Returns s d).
Proof.
  unfold session_opens. intros H.
  apply andb_true_iff in H as [H H3]. apply andb_true_iff in H as [H1 H2].
  auto using answers_returns.
Qed.

(** Turn what is assumed of the server into equations on its answers. *)
Ltac known_answers :=
  repeat match goal with
         | H : answers _ _ = true |- _ =>
           apply answers_returns in H; destruct H as (? & ? & H)
         | H : session_opens _ _ _ _ _ = true |- _ =>
           apply session_opens_returns in H;
           destruct H as ((? & ? & ?) & (? & ? & ?) & (? & ? & ?))
         end;
  unfold opened in *.

(* ===================================================================== *)
(** ** Body extraction *)
(* ===================================================================== *)

Section ExtractBodyFacts.

Variable transfer_decode : str -> bytes -> bytes.

Lemma walk_starts_with_itself (m : Message) :
  exists rest, walk m = m :: rest.
Proof. destruct m; simpl; eauto. Qed.

Lemma last_cons_default (A : Type) (l : list A) (a d : A) :
  last (a :: l) d = last l a.
Proof.
  revert a d. induction l as [|b l IH]; intros a d; [reflexivity|].
  change (last (a :: b :: l) d) with (last (b :: l) d).
  rewrite (IH b d), (IH b a). reflexivity.
Qed.

(** Parts that give no text are passed over; [content_type] follows the
    last of them and [body] stays empty. *)
Lemma walk_loop_skips (pre rest : list Message) (ct : option str) :
  (forall q, In q pre -> gives_no_text transfer_decode q) ->
  walk_loop transfer_decode (pre ++ rest) "" ct =
  walk_loop transfer_decode rest ""
    (match pre with [] => ct | p :: pre' => Some (get_content_type (last pre' p)) end).
Proof.
  revert ct. induction pre as [|p pre IH]; intros ct Hpre; [reflexivity|].
  simpl app. cbn [walk_loop].
  assert (Hp : gives_no_text transfer_decode p) by (apply Hpre; left; reflexivity).
  assert (Hrest : forall q, In q pre -> gives_no_text transfer_decode q)
    by (intros q Hq; apply Hpre; right; exact Hq).
  destruct Hp as [Hp | [e Hp]]; rewrite Hp; cbn [String.eqb];
    rewrite (IH _ Hrest); destruct pre as [|p' pre'];
    rewrite ?last_cons_default; reflexivity.
Qed.

(** The loop stops at a part with text. *)
Lemma walk_loop_takes (p : Message) (rest : list Message) (s : str) (ct : option str) :
  part_text transfer_decode p = Return s -> s <> "" ->
  walk_loop transfer_decode (p :: rest) "" ct = (s, Some (get_content_type p)).
Proof.
  intros Hp Hs. cbn [walk_loop]. rewrite Hp.
  destruct (String.eqb_spec s ""); [contradiction | reflexivity].
Qed.

(** After one turn of the loop [content_type] is bound. *)
Lemma walk_loop_binds (ps : list Message) (body : str) (ct : str) :
  exists body' ct', walk_loop transfer_decode ps body (Some ct) = (body', Some ct').
Proof.
  revert body ct. induction ps as [|p ps IH]; intros body ct; cbn [walk_loop].
  - eauto.
  - destruct (part_text transfer_decode p) as [b|e]; [|apply IH].
    destruct (String.eqb b ""); [apply IH | eauto].
Qed.

(** On a multipart message [extract_body] never raises: a part that
    cannot be decoded is passed over. *)
Lemma extract_body_multipart_returns (m : Message) :
  is_multipart m = true ->
  exists body content_type,
    extract_body transfer_decode m = Return (body, content_type).
Proof.
  intros Hm. unfold extract_body. rewrite Hm.
  destruct (walk_starts_with_itself m) as [rest ->]. cbn [walk_loop].
  destruct (part_text transfer_decode m) as [b|e].
  - destruct (String.eqb b ""); [|eauto].
    destruct (walk_loop_binds rest b (get_content_type m)) as (b' & c' & ->). eauto.
  - destruct (walk_loop_binds rest "" (get_content_type m)) as (b' & c' & ->). eauto.
Qed.

(** C3. On a multipart message [extract_body] goes through the parts in
    the order of [walk] (the message itself, then its parts, depth
    first) and returns the text of the first part whose text decodes and
    is not empty, with that part's content type; parts before it that
    raise on decoding or decode to the empty text are passed over.  If no
    part gives text, the body is empty and the content type is that of
    the last part walked.  Being a function of the message, it gives the
    same result each time. *)
Theorem extract_body_multipart (m : Message) :
  is_multipart m = true ->
  (forall pre p post s,
      walk m = pre ++ p :: post ->
      (forall q, In q pre -> gives_no_text transfer_decode q) ->
      part_text transfer_decode p = Return s -> s <> "" ->
      extract_body transfer_decode m = Return (s, get_content_type p))
  /\ ((forall q, In q (walk m) -> gives_no_text transfer_decode q) ->
      extract_body transfer_decode m =
      Return ("", get_content_type (last (walk m) m)))
  /\ (forall r1 r2,
      extract_body transfer_decode m = r1 ->
      extract_body transfer_decode m = r2 -> r1 = r2).
Proof.
  intros Hm. unfold extract_body. rewrite Hm. split; [|split].
  - intros pre p post s Hw Hpre Hp Hs.
    rewrite Hw, (walk_loop_skips pre (p :: post) None Hpre).
    rewrite (walk_loop_takes p post s _ Hp Hs). reflexivity.
  - intros Hall.
    destruct (walk_starts_with_itself m) as [rest Hw].
    rewrite Hw in Hall |- *.
    rewrite <- (app_nil_r (m :: rest)) at 1.
    rewrite (walk_loop_skips (m :: rest) [] None Hall).
    cbn [walk_loop]. rewrite last_cons_default. reflexivity.
  - intros r1 r2 H1 H2. congruence.
Qed.

(** C9. On a single-part message [extract_body] undoes the transfer
    encoding the message declares, decodes the bytes to text, and returns
    the text with the message's content type; when the bytes do not
    decode, the [UnicodeDecodeError] is raised to the caller: there is no
    fallback, unlike in the multipart loop. *)
Theorem extract_body_single (headers : list (str * str)) (ctype cte : str) (raw : bytes) :
  extract_body transfer_decode (Single headers ctype cte raw) =
  if utf8_valid (transfer_decode cte raw)
  then Return (string_of_list_byte (transfer_decode cte raw), ctype)
  else Raise UnicodeDecodeError.
Proof.
  unfold extract_body, part_text, bytes_decode. cbn [is_multipart get_content_type].
  destruct (utf8_valid (transfer_decode cte raw)); reflexivity.
Qed.

End ExtractBodyFacts.

(* ===================================================================== *)
(** ** Opening and closing the session *)
(* ===================================================================== *)

Section SessionFacts.

Variables SERVER USER PASSWORD : str.
Variable message_from_bytes : bytes -> Message.
Variable transfer_decode : str -> bytes -> bytes.
Variable srv : server.

Notation view_email :=
  (view_email SERVER USER PASSWORD message_from_bytes transfer_decode srv).
Notation delete_email := (delete_email SERVER USER PASSWORD srv).
Notation move_email := (move_email SERVER USER PASSWORD srv).
Notation list_mailboxes := (list_mailboxes SERVER USER PASSWORD srv).
Notation check_unseen := (check_unseen SERVER USER PASSWORD message_from_bytes srv).
Notation search_emails := (search_emails SERVER USER PASSWORD message_from_bytes srv).
Notation opened := (opened SERVER USER PASSWORD).
Notation session_opens := (session_opens SERVER USER PASSWORD srv).

(** C1. The specification wants one connection and exactly one logout
    per invocation, whatever the outcome.  [view_email] does not do it:
    whenever it returns a result it has connected once and has not
    logged out at all; its [return] sits inside the [try] and no logout
    precedes it. *)
Theorem view_email_returns_without_logout (email_id mailbox : str) (r : ViewResult) :
  outcome (view_email email_id mailbox) = Return r ->
  connects (calls (view_email email_id mailbox)) = 1 /\
  logouts (calls (view_email email_id mailbox)) = 0.
Proof.
  unfold_tool.
  repeat next_case; intros H; try discriminate H; split; reflexivity.
Qed.

(** The sibling tools do log out before they return. *)
Lemma delete_email_returns_after_logout (email_id mailbox : str) (r : DeleteResult) :
  outcome (delete_email email_id mailbox) = Return r ->
  connects (calls (delete_email email_id mailbox)) = 1 /\
  logouts (calls (delete_email email_id mailbox)) = 1.
Proof.
  unfold_tool.
  repeat next_case; intros H; try discriminate H; split; reflexivity.
Qed.

Lemma move_email_returns_after_logout (email_id target_mailbox : str) (r : MoveResult) :
  outcome (move_email email_id target_mailbox) = Return r ->
  connects (calls (move_email email_id target_mailbox)) = 1 /\
  logouts (calls (move_email email_id target_mailbox)) = 1.
Proof.
  unfold_tool.
  repeat next_case; intros H; try discriminate H; split; reflexivity.
Qed.

Lemma list_mailboxes_returns_after_logout (r : list str) :
  outcome list_mailboxes = Return r ->
  connects (calls list_mailboxes) = 1 /\ logouts (calls list_mailboxes) = 1.
Proof.
  unfold_tool.
  repeat next_case; intros H; try discriminate H; split; reflexivity.
Qed.

(** C2. When the constructor [IMAP4_SSL] raises, [mail] is never bound;
    the handler's [mail.logout()] then raises [UnboundLocalError], and
    that error, not the connection failure, is what each of the six
    tools propagates. *)
Theorem connect_failure_is_masked (e : exn) :
  srv [CConnect SERVER] = Raises e ->
  (forall email_id mailbox,
      outcome (view_email email_id mailbox) = Raise (UnboundLocalError "mail")) /\
  (forall email_id mailbox,
      outcome (delete_email email_id mailbox) = Raise (UnboundLocalError "mail")) /\
  (forall email_id target_mailbox,
      outcome (move_email email_id target_mailbox) = Raise (UnboundLocalError "mail")) /\
  outcome list_mailboxes = Raise (UnboundLocalError "mail") /\
  outcome check_unseen = Raise (UnboundLocalError "mail") /\
  (forall criterion value mailbox,
      outcome (search_emails criterion value mailbox) = Raise (UnboundLocalError "mail")).
Proof.
  intros H. repeat split; intros; unfold_tool; rewrite H; reflexivity.
Qed.

(** A failed login is another matter: [mail] is bound by then, the
    handler logs out and the login error is raised again. *)
Lemma login_failure_is_reraised (e : exn) (email_id mailbox : str) :
  answers srv [CConnect SERVER] = true ->
  srv [CLogin USER PASSWORD; CConnect SERVER] = Raises e ->
  answers srv [CLogout; CLogin USER PASSWORD; CConnect SERVER] = true ->
  outcome (view_email email_id mailbox) = Raise e /\
  calls (view_email email_id mailbox) =
    [CConnect SERVER; CLogin USER PASSWORD; CLogout].
Proof.
  intros. known_answers. unfold_tool. run_known. split; reflexivity.
Qed.

(** C4. [move_email] does not look at the status [mail.copy] returns.
    When the copy is refused (any status but [OK]) and no call raises,
    the tool still sets the deletion flag on the message, expunges the
    INBOX and reports success. *)
Theorem move_email_flags_after_refused_copy
        (email_id target_mailbox status : str) (data : list resp_item) :
  never_raises srv ->
  srv (CCopy (IdStr email_id) target_mailbox :: opened "INBOX") = Returns status data ->
  status <> "OK" ->
  outcome (move_email email_id target_mailbox) =
    Return {| m_status := "success"; m_email_id := email_id;
              m_target_mailbox := target_mailbox |} /\
  calls (move_email email_id target_mailbox) =
    [CConnect SERVER; CLogin USER PASSWORD; CSelect "INBOX";
     CCopy (IdStr email_id) target_mailbox;
     CStore (IdStr email_id) "+FLAGS" "(DELETED)"; CExpunge; CLogout].
Proof.
  intros Hsrv Hcopy _. unfold_tool.
  repeat (next_case;
          try match goal with
              | H : srv ?h = Raises _ |- _ =>
                pose proof (Hsrv h) as Hh; unfold answers in Hh; rewrite H in Hh;
                discriminate Hh
              end).
  split; reflexivity.
Qed.

(** Only a copy that raises stops the move before the flag is set. *)
Lemma move_email_stops_when_copy_raises (email_id target_mailbox : str) (e : exn) :
  session_opens "INBOX" = true ->
  srv (CCopy (IdStr email_id) target_mailbox :: opened "INBOX") = Raises e ->
  answers srv (CLogout :: CCopy (IdStr email_id) target_mailbox :: opened "INBOX") = true ->
  outcome (move_email email_id target_mailbox) = Raise e /\
  calls (move_email email_id target_mailbox) =
    [CConnect SERVER; CLogin USER PASSWORD; CSelect "INBOX";
     CCopy (IdStr email_id) target_mailbox; CLogout].
Proof.
  intros. known_answers. unfold_tool. run_known. split; reflexivity.
Qed.

(** Whatever the server does, the only mailbox [move_email] selects is
    the INBOX. *)
Lemma move_email_selects_inbox (email_id target_mailbox mailbox : str) :
  In (CSelect mailbox) (calls (move_email email_id target_mailbox)) ->
  mailbox = "INBOX".
Proof.
  unfold_tool. repeat next_case; cbn [rev app In];
    intros H; repeat destruct H as [H | H]; congruence || contradiction.
Qed.

(** C7. When the session opens and the search comes back with a status
    other than [OK], [search_emails] returns the one-sentence list
    instead of raising, for every criterion, value and mailbox. *)
Theorem search_emails_sentinel
        (criterion value mailbox status : str) (data : list resp_item) :
  session_opens mailbox = true ->
  srv (CSearch None [criterion; value] :: opened mailbox) = Returns status data ->
  status <> "OK" ->
  outcome (search_emails criterion value mailbox) =
    Return (NoMatch ["No matching emails found."]).
Proof.
  intros Hopen Hsearch Hstatus. known_answers. unfold_tool. run_known.
  destruct (String.eqb_spec status "OK"); [contradiction | reflexivity].
Qed.

(** On that path the tool returns without logging out. *)
Lemma search_emails_sentinel_calls
      (criterion value mailbox status : str) (data : list resp_item) :
  session_opens mailbox = true ->
  srv (CSearch None [criterion; value] :: opened mailbox) = Returns status data ->
  status <> "OK" ->
  calls (search_emails criterion value mailbox) =
    [CConnect SERVER; CLogin USER PASSWORD; CSelect mailbox;
     CSearch None [criterion; value]].
Proof.
  intros Hopen Hsearch Hstatus. known_answers. unfold_tool. run_known.
  destruct (String.eqb_spec status "OK"); [contradiction | reflexivity].
Qed.


End SessionFacts.

(* ===================================================================== *)
(** ** The summaries of [check_unseen] and [search_emails] *)
(* ===================================================================== *)

Lemma dict_set_keys (d : dict) (k : bytes) (v : Summary) (id : bytes) :
  In id (keys (dict_set d k v)) <-> id = k \/ In id (keys d).
Proof.
  unfold keys. induction d as [|[k' v'] d IH]; simpl.
  - intuition.
  - destruct (bytes_eq_dec k' k) as [->|Hne]; simpl.
    + intuition.
    + rewrite IH. intuition.
Qed.

Lemma fetch_cmd_inj (a b : bytes) : fetch_cmd a = fetch_cmd b -> a = b.
Proof. unfold fetch_cmd. congruence. Qed.

Section Loop.

Variable message_from_bytes : bytes -> Message.
Variable srv : server.

Notation loop := (fetch_loop message_from_bytes srv).

(** One turn of the loop. *)
Lemma fetch_loop_unfold (id : bytes) (rest : list bytes) (acc : dict) (f : frame) :
  loop (id :: rest) acc f =
  match mail f with
  | None => (Raise (UnboundLocalError "mail"), f)
  | Some _ =>
    let f1 := {| trace := fetch_cmd id :: trace f; mail := mail f |} in
    match srv (fetch_cmd id :: trace f) with
    | Raises e => (Raise e, f1)
    | Returns status data =>
      if String.eqb status "OK" then
        match parse_fetched message_from_bytes data f1 with
        | (Return email_message, f2) =>
          loop rest
            (dict_set acc id
               {| Subject := get_header (msg_headers email_message) "Subject";
                  Date := get_header (msg_headers email_message) "Date" |}) f2
        | (Raise e, f2) => (Raise e, f2)
        end
      else loop rest acc f1
    end
  end.
Proof.
  destruct f as [t m].
  cbn [fetch_loop]. unfold bind at 1. unfold mail_do, get_mail, bind at 1.
  cbn [trace mail]. destruct m; [|reflexivity].
  unfold call. cbn [trace mail]. unfold fetch_cmd.
  destruct (srv _) as [status data|e]; [|reflexivity].
  destruct (String.eqb status "OK"); [|reflexivity].
  unfold bind at 1. reflexivity.
Qed.

Lemma parse_fetched_frame (data : list resp_item) (f : frame) :
  snd (parse_fetched message_from_bytes data f) = f.
Proof.
  unfold parse_fetched, bind, lift.
  destruct (index0 data) as [item|]; [|reflexivity].
  destruct (index1 item) as [v|]; [|reflexivity].
  destruct (message_from message_from_bytes v); reflexivity.
Qed.

(** Whatever the server does, the loop only issues fetches of
    [(RFC822)], for the ids in their order, and leaves [mail] alone. *)
Lemma fetch_loop_frame (ids : list bytes) (acc : dict) (f : frame) :
  exists n,
    trace (snd (loop ids acc f)) = rev (map fetch_cmd (firstn n ids)) ++ trace f /\
    mail (snd (loop ids acc f)) = mail f.
Proof.
  revert acc f. induction ids as [|id ids IH]; intros acc f.
  - exists 0. split; reflexivity.
  - rewrite fetch_loop_unfold. destruct f as [t m]. cbn [trace mail].
    destruct m as [c|]; [|exists 0; auto].
    destruct (srv _) as [status data|e]; [|exists 1; auto].
    destruct (String.eqb status "OK").
    + pose proof (parse_fetched_frame data
                    {| trace := fetch_cmd id :: t; mail := Some c |}) as Hf.
      destruct (parse_fetched _ _ _) as [[msg|e] f2]; cbn [snd] in Hf; subst f2.
      * destruct (IH (dict_set acc id
                 {| Subject := get_header (msg_headers msg) "Subject";
                    Date := get_header (msg_headers msg) "Date" |})
                 {| trace := fetch_cmd id :: t; mail := Some c |})
          as (n & Ht & Hm).
        exists (S n). rewrite Ht, Hm. cbn [trace mail firstn map rev].
        rewrite <- app_assoc. auto.
      * exists 1. auto.
    + destruct (IH acc {| trace := fetch_cmd id :: t; mail := Some c |})
        as (n & Ht & Hm).
      exists (S n). rewrite Ht, Hm. cbn [trace mail firstn map rev].
      rewrite <- app_assoc. auto.
Qed.

(** When no call raises and every [OK] fetch carries a message, the loop
    runs to its end, and a key is in the dict exactly when it was there
    before or one of its fetches was answered [OK]. *)
Lemma fetch_loop_complete (ids : list bytes) (acc : dict) (f : frame) (c : IMAP4) :
  never_raises srv -> ok_fetch_carries_message srv ->
  mail f = Some c ->
  exists acc',
    loop ids acc f =
      (Return acc', {| trace := rev (map fetch_cmd ids) ++ trace f; mail := Some c |}) /\
    forall id,
      In id (keys acc') <->
      In id (keys acc) \/
      exists pre post data,
        ids = pre ++ id :: post /\
        srv (fetch_cmd id :: rev (map fetch_cmd pre) ++ trace f) = Returns "OK" data.
Proof.
  intros Hsrv Hok. revert acc f.
  induction ids as [|id0 ids IH]; intros acc f Hmail.
  - exists acc. split.
    + destruct f as [t m]. cbn in *. subst m. reflexivity.
    + intros id. split; [auto|].
      intros [H | (pre & post & data & H & _)]; [exact H|].
      destruct pre; discriminate H.
  - rewrite fetch_loop_unfold, Hmail.
    pose proof (Hsrv (fetch_cmd id0 :: trace f)) as Hans.
    apply answers_returns in Hans as (status & data & Hans). rewrite Hans.
    cbn zeta.
    destruct (String.eqb_spec status "OK") as [->|Hstatus].
    + destruct (Hok _ _ _ _ Hans) as (a & b & rest & ->).
      unfold parse_fetched, bind, lift. cbn [index0 index1 message_from].
      set (v := {| Subject := _; Date := _ |}).
      destruct (IH (dict_set acc id0 v)
                   {| trace := fetch_cmd id0 :: trace f; mail := Some c |} eq_refl)
        as (acc' & Hrun & Hkeys).
      exists acc'. split.
      * rewrite Hrun. cbn [trace map rev]. rewrite <- app_assoc. reflexivity.
      * intros id. rewrite Hkeys, dict_set_keys. cbn [trace]. split.
        -- intros [[-> | H] | (pre & post & d & -> & H)].
           ++ right. exists [], ids, (RTuple a b :: rest). auto.
           ++ auto.
           ++ right. exists (id0 :: pre), post, d. split; [reflexivity|].
              cbn [map rev]. rewrite <- app_assoc. exact H.
        -- intros [H | (pre & post & d & Hids & H)]; [auto|].
           destruct pre as [|p pre]; cbn in Hids; injection Hids as -> ->.
           ++ auto.
           ++ right. exists pre, post, d. split; [reflexivity|].
              cbn [map rev] in H. rewrite <- app_assoc in H. exact H.
    + destruct (IH acc {| trace := fetch_cmd id0 :: trace f; mail := Some c |} eq_refl)
        as (acc' & Hrun & Hkeys).
      exists acc'. split.
      * rewrite Hrun. cbn [trace map rev]. rewrite <- app_assoc. reflexivity.
      * intros id. rewrite Hkeys. cbn [trace]. split.
        -- intros [H | (pre & post & d & -> & H)]; [auto|].
           right. exists (id0 :: pre), post, d. split; [reflexivity|].
           cbn [map rev]. rewrite <- app_assoc. exact H.
        -- intros [H | (pre & post & d & Hids & H)]; [auto|].
           destruct pre as [|p pre]; cbn in Hids; injection Hids as -> ->.
           ++ cbn in H. rewrite Hans in H. congruence.
           ++ right. exists pre, post, d. split; [reflexivity|].
              cbn [map rev] in H. rewrite <- app_assoc in H. exact H.
Qed.

End Loop.

(** Where the calls of an invocation are [p], then the fetches of the
    loop, then [s], a fetch answered [OK] is one of the loop's. *)
Lemma fetch_reported_ok_loop (srv : server) (p s : list command)
      (ids : list bytes) (id : bytes) :
  ~ In (fetch_cmd id) p -> ~ In (fetch_cmd id) s ->
  fetch_reported_ok srv (p ++ map fetch_cmd ids ++ s) id <->
  exists pre post data,
    ids = pre ++ id :: post /\
    srv (fetch_cmd id :: rev (map fetch_cmd pre) ++ rev p) = Returns "OK" data.
Proof.
  intros Hp Hs. unfold fetch_reported_ok. fold (fetch_cmd id). split.
  - intros (before & after & data & Hcs & Hok).
    assert (Hmid : exists l, before = p ++ l /\
                             map fetch_cmd ids ++ s = l ++ fetch_cmd id :: after).
    { symmetry in Hcs. apply app_eq_app in Hcs as [l [[H1 H2] | [H1 H2]]].
      - exists l. exact (conj H1 H2).
      - destruct l as [|x l].
        + exists []. rewrite app_nil_r in H1. subst p. rewrite app_nil_r.
          cbn in H2. split; [reflexivity | symmetry; exact H2].
        + injection H2 as <- _. exfalso. apply Hp. rewrite H1.
          apply in_or_app. right. left. reflexivity. }
    destruct Hmid as (l & -> & Hmid).
    symmetry in Hmid. apply app_eq_app in Hmid as [l2 [[H1 H2] | [H1 H2]]].
    + exfalso. apply Hs. rewrite H2. apply in_or_app. right. left. reflexivity.
    + destruct l2 as [|x l2].
      * exfalso. apply Hs. cbn in H2. rewrite <- H2. left. reflexivity.
      * injection H2 as <- H2.
        apply map_eq_app in H1 as (pre & rest & -> & Hpre & Hrest).
        apply map_eq_cons in Hrest as (id' & post & -> & Hid & _).
        apply fetch_cmd_inj in Hid. subst id' l.
        exists pre, post, data. split; [reflexivity|].
        rewrite rev_app_distr in Hok. exact Hok.
  - intros (pre & post & data & -> & Hok).
    exists (p ++ map fetch_cmd pre), (map fetch_cmd post ++ s), data. split.
    + rewrite map_app. cbn [map]. rewrite <- !app_assoc. reflexivity.
    + rewrite rev_app_distr. exact Hok.
Qed.

(** The explicit lists of calls behind the vocabulary. *)
Ltac unfold_calls := unfold summary_calls, opened in *.

(** Step over the loop, keeping what [fetch_loop_frame] says of it. *)
Ltac loop_case :=
  match goal with
  | |- context [fetch_loop ?m ?s ?ids ?acc ?f] =>
    let n := fresh "n" in
    let Ht := fresh "Htrace" in
    let Hm := fresh "Hmail" in
    let r := fresh "r" in
    let f' := fresh "f" in
    destruct (fetch_loop_frame m s ids acc f) as (n & Ht & Hm);
    destruct (fetch_loop m s ids acc f) as [r f'];
    cbn [trace mail fst snd] in Ht, Hm |- *;
    rewrite ?Hm, ?Ht; cbn [trace mail fst snd]
  end.

(** Use what is known of the frame the loop left. *)
Ltac frame_known :=
  match goal with
  | H : mail ?f = _ |- context [mail ?f] => rewrite H
  | H : trace ?f = _ |- context [trace ?f] => rewrite H
  end; cbn [trace mail fst snd].

(** Among the opening calls, the loop's fetches and the logout, a fetch
    asks for [(RFC822)]. *)
Ltac only_rfc822 :=
  intros Hin; apply in_rev in Hin; cbn [In] in Hin;
  repeat match goal with
         | H : _ \/ _ |- _ => destruct H as [H | H]
         | H : In _ (_ ++ _) |- _ => apply in_app_or in H
         | H : In _ (rev _) |- _ => apply in_rev in H
         | H : In _ (map fetch_cmd _) |- _ =>
           apply in_map_iff in H; destruct H as (? & H & _); unfold fetch_cmd in H
         | H : In _ (_ :: _) |- _ => cbn [In] in H
         | H : In _ [] |- _ => destruct H
         | H : False |- _ => destruct H
         | H : _ = CFetch _ _ |- _ => first [discriminate H | injection H as _ H; auto]
         end.

Section Summaries.

Variables SERVER USER PASSWORD : str.
Variable message_from_bytes : bytes -> Message.
Variable transfer_decode : str -> bytes -> bytes.
Variable srv : server.

Notation view_email :=
  (view_email SERVER USER PASSWORD message_from_bytes transfer_decode srv).
Notation check_unseen := (check_unseen SERVER USER PASSWORD message_from_bytes srv).
Notation search_emails := (search_emails SERVER USER PASSWORD message_from_bytes srv).

(** Every fetch [check_unseen], [search_emails] and [view_email] issue
    asks for [(RFC822)], the whole message with its body. *)
Lemma summary_fetches_request_rfc822 :
  (forall ids parts, In (CFetch ids parts) (calls check_unseen) -> parts = "(RFC822)") /\
  (forall criterion value mailbox ids parts,
      In (CFetch ids parts) (calls (search_emails criterion value mailbox)) ->
      parts = "(RFC822)") /\
  (forall email_id mailbox ids parts,
      In (CFetch ids parts) (calls (view_email email_id mailbox)) ->
      parts = "(RFC822)").
Proof.
  split; [|split]; intros; revert H; unfold_tool;
    repeat first [frame_known | loop_case | next_case]; only_rfc822.
Qed.

End Summaries.

Section Skips.

Variables SERVER USER PASSWORD : str.
Variable message_from_bytes : bytes -> Message.
Variable srv : server.

Notation check_unseen := (check_unseen SERVER USER PASSWORD message_from_bytes srv).
Notation search_emails := (search_emails SERVER USER PASSWORD message_from_bytes srv).
Notation opened := (opened SERVER USER PASSWORD).
Notation summary_calls := (summary_calls SERVER USER PASSWORD).

Hypothesis Hsrv : never_raises srv.
Hypothesis Hok : ok_fetch_carries_message srv.

(** The loop and the logout after a search that came back with [ids]. *)
Lemma summaries_run (mailbox : str) (criteria : list str) (ids : list bytes) (c : IMAP4) :
  exists d status data,
    fetch_loop message_from_bytes srv ids []
      {| trace := CSearch None criteria :: opened mailbox; mail := Some c |} =
    (Return d,
     {| trace := rev (map fetch_cmd ids) ++ CSearch None criteria :: opened mailbox;
        mail := Some c |}) /\
    srv (CLogout :: rev (map fetch_cmd ids) ++ CSearch None criteria :: opened mailbox) =
      Returns status data /\
    CLogout :: rev (map fetch_cmd ids) ++ CSearch None criteria :: opened mailbox =
      rev (summary_calls mailbox criteria ids) /\
    forall id,
      In id (keys d) <->
      fetch_reported_ok srv (summary_calls mailbox criteria ids) id.
Proof.
  destruct (fetch_loop_complete message_from_bytes srv ids []
              {| trace := CSearch None criteria :: opened mailbox; mail := Some c |}
              c Hsrv Hok eq_refl) as (d & Hrun & Hkeys).
  destruct (answers_returns _ _ (Hsrv (CLogout :: rev (map fetch_cmd ids) ++
                CSearch None criteria :: opened mailbox))) as (s & dt & Hout).
  exists d, s, dt. repeat split; try assumption.
  - unfold_calls. rewrite !rev_app_distr. reflexivity.
  - rewrite Hkeys. unfold_calls.
    rewrite fetch_reported_ok_loop.
    + cbn [keys map In trace rev app]. intuition.
    + unfold fetch_cmd. cbn [In]. intuition discriminate.
    + unfold fetch_cmd. cbn [In]. intuition discriminate.
  - rewrite Hkeys. unfold_calls.
    rewrite fetch_reported_ok_loop.
    + cbn [keys map In trace rev app]. intuition.
    + unfold fetch_cmd. cbn [In]. intuition discriminate.
    + unfold fetch_cmd. cbn [In]. intuition discriminate.
Qed.

(** C10. When no call raises and an [OK] fetch carries its message,
    [check_unseen] and [search_emails] (after a search answered [OK])
    fetch every id of the line the search returned, in order, return a
    dict and raise nothing; the keys of the dict are exactly the ids one
    of whose fetches was answered [OK]: an id of the line whose fetch
    reports another status is left out, and the ids after it are still
    fetched. *)
Theorem failed_fetches_are_skipped
        (criterion value mailbox status : str) (line line' : bytes)
        (rest rest' : list resp_item) :
  srv (CSearch None ["UNSEEN"] :: opened "INBOX") = Returns status (RBytes line :: rest) ->
  srv (CSearch None [criterion; value] :: opened mailbox) =
    Returns "OK" (RBytes line' :: rest') ->
  (exists d,
      outcome check_unseen = Return d /\
      calls check_unseen = summary_calls "INBOX" ["UNSEEN"] (bytes_split line) /\
      (forall id, In id (keys d) <-> fetch_reported_ok srv (calls check_unseen) id) /\
      (forall id,
          In id (bytes_split line) ->
          ~ fetch_reported_ok srv (calls check_unseen) id ->
          ~ In id (keys d))) /\
  (exists d,
      outcome (search_emails criterion value mailbox) = Return (Matches d) /\
      calls (search_emails criterion value mailbox) =
        summary_calls mailbox [criterion; value] (bytes_split line') /\
      (forall id,
          In id (keys d) <->
          fetch_reported_ok srv (calls (search_emails criterion value mailbox)) id) /\
      (forall id,
          In id (bytes_split line') ->
          ~ fetch_reported_ok srv (calls (search_emails criterion value mailbox)) id ->
          ~ In id (keys d))).
Proof.
  intros Hunseen Hsearch.
  destruct (answers_returns _ _ (Hsrv [CConnect SERVER])) as (s1 & d1 & H1).
  destruct (answers_returns _ _ (Hsrv [CLogin USER PASSWORD; CConnect SERVER]))
    as (s2 & d2 & H2).
  split.
  - destruct (answers_returns _ _ (Hsrv (opened "INBOX"))) as (s3 & d3 & H3).
    destruct (summaries_run "INBOX" ["UNSEEN"] (bytes_split line) {| host := SERVER |})
      as (d & s5 & d5 & Hloop & H5 & Hcalls & Hkeys).
    assert (Hall : check_unseen fresh =
                   (Return d,
                    {| trace := rev (summary_calls "INBOX" ["UNSEEN"] (bytes_split line));
                       mail := Some {| host := SERVER |} |})).
    { unfold_calls. unfold_tool. run_known.
      cbn [index0 item_split]. rewrite Hloop. cbn [trace mail fst snd].
      run_known. rewrite Hcalls. reflexivity. }
    exists d. unfold outcome, calls. rewrite Hall. cbn [fst snd trace].
    rewrite rev_involutive. repeat split; try apply Hkeys.
    intros id _ Hnot Hin. apply Hnot, Hkeys, Hin.
  - destruct (answers_returns _ _ (Hsrv (opened mailbox))) as (s3 & d3 & H3).
    destruct (summaries_run mailbox [criterion; value] (bytes_split line')
                            {| host := SERVER |})
      as (d & s5 & d5 & Hloop & H5 & Hcalls & Hkeys).
    assert (Hall : search_emails criterion value mailbox fresh =
                   (Return (Matches d),
                    {| trace := rev (summary_calls mailbox [criterion; value]
                                                   (bytes_split line'));
                       mail := Some {| host := SERVER |} |})).
    { unfold_calls. unfold_tool. run_known.
      cbn [String.eqb Ascii.eqb Bool.eqb negb index0 item_split].
      rewrite Hloop. cbn [trace mail fst snd].
      run_known. rewrite Hcalls. reflexivity. }
    exists d. unfold outcome, calls. rewrite Hall. cbn [fst snd trace].
    rewrite rev_involutive. repeat split; try apply Hkeys.
    intros id _ Hnot Hin. apply Hnot, Hkeys, Hin.
Qed.

End Skips.

(* ===================================================================== *)
(** ** The names of [list_mailboxes] *)
(* ===================================================================== *)

Lemma append_assoc (a b c : str) : ((a ++ b) ++ c)%string = (a ++ b ++ c)%string.
Proof. induction a as [|x a IH]; simpl; [reflexivity | rewrite IH; reflexivity]. Qed.

Lemma append_nil_r (a : str) : (a ++ "")%string = a.
Proof. induction a as [|x a IH]; simpl; [reflexivity | rewrite IH; reflexivity]. Qed.

(** The separator starts with a double quote: it cannot start at another
    character. *)
Lemma no_token_at (c : ascii) (s : str) :
  Ascii.eqb c QUOTE = false -> prefix DOT_TOKEN (String c s) = false.
Proof.
  intros Hc. unfold DOT_TOKEN. cbn [prefix]. fold QUOTE.
  destruct (ascii_dec QUOTE c) as [<-|_]; [|reflexivity].
  rewrite Ascii.eqb_refl in Hc. discriminate Hc.
Qed.

Lemma split_go_quote_free (a s cur : str) :
  quote_free a = true ->
  split_go DOT_TOKEN (a ++ s)%string 0 cur = split_go DOT_TOKEN s 0 (cur ++ a)%string.
Proof.
  revert cur. induction a as [|c a IH]; intros cur Ha.
  - rewrite append_nil_r. reflexivity.
  - cbn [quote_free] in Ha. apply andb_true_iff in Ha as [Hc Ha].
    apply negb_true_iff in Hc.
    cbn [append split_go]. rewrite (no_token_at c (a ++ s)%string Hc), (IH _ Ha).
    rewrite append_assoc. reflexivity.
Qed.

Lemma split_go_token (s cur : str) :
  split_go DOT_TOKEN (DOT_TOKEN ++ s)%string 0 cur = cur :: split_go DOT_TOKEN s 0 "".
Proof.
  unfold DOT_TOKEN at 2. cbn [append split_go].
  replace (prefix DOT_TOKEN _) with true; [reflexivity|].
  unfold DOT_TOKEN. cbn [prefix].
  repeat match goal with
         | |- context [ascii_dec ?a ?a] => destruct (ascii_dec a a); [|congruence]
         end.
  destruct s; reflexivity.
Qed.

Lemma split_go_token_free (s cur : str) :
  token_free s = true -> split_go DOT_TOKEN s 0 cur = [(cur ++ s)%string].
Proof.
  revert cur. induction s as [|c s IH]; intros cur Hs.
  - rewrite append_nil_r. reflexivity.
  - cbn [token_free] in Hs. apply andb_true_iff in Hs as [Hc Hs].
    apply negb_true_iff in Hc. cbn [split_go]. rewrite Hc, (IH _ Hs).
    rewrite append_assoc. reflexivity.
Qed.

(** A line with one separator splits in two around it. *)
Lemma str_split_list_line (attrs rest : str) :
  quote_free attrs = true -> token_free rest = true ->
  str_split DOT_TOKEN (attrs ++ DOT_TOKEN ++ rest)%string = [attrs; rest].
Proof.
  intros Ha Hr. unfold str_split.
  rewrite (split_go_quote_free attrs _ "" Ha), split_go_token.
  rewrite (split_go_token_free rest "" Hr). reflexivity.
Qed.

(** What the comprehension of [list_mailboxes] makes of such a line: the
    part after the separator, without its spaces. *)
Lemma mailbox_of_list_line (attrs rest : str) :
  quote_free attrs = true -> token_free rest = true ->
  utf8_valid (list_byte_of_string (attrs ++ DOT_TOKEN ++ rest)%string) = true ->
  mailbox_of_item (list_line attrs rest) = Return (remove_spaces rest).
Proof.
  intros Ha Hr Hu. unfold mailbox_of_item, list_line, item_decode, bytes_decode.
  rewrite Hu, string_of_list_byte_of_string, (str_split_list_line _ _ Ha Hr).
  reflexivity.
Qed.

Lemma token_free_app (a s : str) :
  quote_free a = true -> token_free (a ++ s)%string = token_free s.
Proof.
  induction a as [|c a IH]; intros Ha; [reflexivity|].
  cbn [quote_free] in Ha. apply andb_true_iff in Ha as [Hc Ha].
  apply negb_true_iff in Hc.
  cbn [append token_free]. rewrite (no_token_at c _ Hc), (IH Ha). reflexivity.
Qed.

(** A quoted name holds no separator, unless the name is a lone dot. *)
Lemma token_free_quoted (name : str) :
  quote_free name = true -> name <> "." ->
  token_free (" " ++ quoted name)%string = true.
Proof.
  intros Hq Hdot. unfold quoted. cbn [append token_free].
  rewrite (no_token_at " "%char _ eq_refl). cbn [negb andb].
  rewrite (token_free_app name _ Hq). cbn [token_free andb].
  replace (prefix DOT_TOKEN (String QUOTE "")) with false by reflexivity.
  rewrite andb_true_r. apply negb_true_iff.
  destruct name as [|c [|d name]].
  - reflexivity.
  - unfold DOT_TOKEN. cbn [append prefix].
    destruct (ascii_dec _ _); [|reflexivity].
    destruct (ascii_dec "."%char c) as [<-|];
      [contradiction Hdot; reflexivity | reflexivity].
  - cbn [quote_free] in Hq. apply andb_true_iff in Hq as [_ Hq].
    apply andb_true_iff in Hq as [Hd _]. apply negb_true_iff in Hd.
    unfold DOT_TOKEN. cbn [append prefix]. fold QUOTE.
    destruct (ascii_dec QUOTE QUOTE); [|reflexivity].
    destruct (ascii_dec "."%char c); [|reflexivity].
    destruct (ascii_dec QUOTE d) as [<-|]; [|reflexivity].
    rewrite Ascii.eqb_refl in Hd. discriminate Hd.
Qed.

Lemma remove_spaces_app (a b : str) :
  remove_spaces (a ++ b)%string = (remove_spaces a ++ remove_spaces b)%string.
Proof.
  induction a as [|c a IH]; [reflexivity|].
  cbn [append remove_spaces]. destruct (Ascii.eqb c " "); rewrite IH; reflexivity.
Qed.

(** The quotes around a name are not spaces: they stay. *)
Lemma remove_spaces_quoted (name : str) :
  remove_spaces (" " ++ quoted name)%string = quoted (remove_spaces name).
Proof.
  unfold quoted. cbn [append remove_spaces Ascii.eqb Bool.eqb].
  replace (Ascii.eqb QUOTE " ") with false by reflexivity.
  rewrite remove_spaces_app. reflexivity.
Qed.

Lemma mailbox_of_listing (entry : str * str) :
  well_framed entry ->
  mailbox_of_item (listing entry) = Return (quoted (remove_spaces (snd entry))).
Proof.
  intros (Ha & Hn & Hdot & Hu). unfold listing.
  rewrite (mailbox_of_list_line _ _ Ha (token_free_quoted _ Hn Hdot) Hu).
  rewrite remove_spaces_quoted. reflexivity.
Qed.

Lemma comprehension_map {A B C} (f : B -> result C) (h : A -> B) (g : A -> C)
      (l : list A) :
  Forall (fun x => f (h x) = Return (g x)) l ->
  comprehension f (map h l) = Return (map g l).
Proof.
  induction 1 as [|x l Hx _ IH]; [reflexivity|].
  cbn [comprehension map]. rewrite Hx, IH. reflexivity.
Qed.

Section Listing.

Variables SERVER USER PASSWORD : str.
Variable srv : server.

(** When every LIST line has the form [attributes "." "name"], the
    names come back in the order of the server, each between its double
    quotes and without its spaces. *)
Lemma list_mailboxes_names (entries : list (str * str)) (status : str) :
  answers srv [CConnect SERVER] = true ->
  answers srv [CLogin USER PASSWORD; CConnect SERVER] = true ->
  srv [CList; CLogin USER PASSWORD; CConnect SERVER] =
    Returns status (map listing entries) ->
  answers srv [CLogout; CList; CLogin USER PASSWORD; CConnect SERVER] = true ->
  Forall well_framed entries ->
  outcome (list_mailboxes SERVER USER PASSWORD srv) =
    Return (map (fun entry => quoted (remove_spaces (snd entry))) entries).
Proof.
  intros Hconnect Hlogin Hlist Hlogout Hframed. known_answers.
  unfold_tool. run_known.
  rewrite (comprehension_map mailbox_of_item listing
             (fun entry => quoted (remove_spaces (snd entry)))).
  - run_known. reflexivity.
  - eapply Forall_impl; [|exact Hframed]. exact mailbox_of_listing.
Qed.

End Listing.

(* ===================================================================== *)
(** ** The statements at work on the sample servers *)
(* ===================================================================== *)

Example four_parts_body :
  extract_body identity_decode four_parts = Return ("See attachment.", "text/plain").
Proof. reflexivity. Qed.

Example nested_parts_walk :
  map get_content_type (walk nested_parts) =
    ["multipart/mixed"; "multipart/alternative"; "text/plain"; "text/html";
     "application/pdf"] /\
  extract_body identity_decode nested_parts = Return ("Minutes attached.", "text/plain").
Proof. split; reflexivity. Qed.

Example no_text_parts_body :
  extract_body identity_decode no_text_parts = Return ("", "image/png").
Proof. reflexivity. Qed.

Lemma extract_body_multipart_witness :
  is_multipart four_parts = true /\
  extract_body identity_decode four_parts = Return ("See attachment.", "text/plain").
Proof.
  split; [reflexivity|].
  refine (proj1 (extract_body_multipart identity_decode four_parts eq_refl)
                [four_parts;
                 Single [] "text/plain" "7bit" [];
                 Single [] "application/octet-stream" "8bit" [xff; xfe]]
                (Single [] "text/plain" "7bit" (b_ "See attachment."))
                [Single [] "text/html" "7bit" (b_ "<p>See attachment.</p>")]
                "See attachment." eq_refl _ eq_refl _).
  - intros q [<- | [<- | [<- | []]]].
    + right. exists AttributeError. reflexivity.
    + left. reflexivity.
    + right. exists UnicodeDecodeError. reflexivity.
  - discriminate.
Defined.

Lemma view_email_returns_without_logout_witness :
  outcome (view_email HOST ALICE SECRET sample_parser identity_decode friendly
                      "1" "INBOX") =
    Return {| v_subject := Some "Hello"; v_from := Some "bob@example.org";
              v_body := "hello"; v_type := "text/plain" |} /\
  connects (calls (view_email HOST ALICE SECRET sample_parser identity_decode friendly
                              "1" "INBOX")) = 1 /\
  logouts (calls (view_email HOST ALICE SECRET sample_parser identity_decode friendly
                             "1" "INBOX")) = 0.
Proof.
  split; [reflexivity|].
  exact (view_email_returns_without_logout HOST ALICE SECRET sample_parser
           identity_decode friendly "1" "INBOX" _ eq_refl).
Defined.

Lemma connect_failure_is_masked_witness :
  unreachable [CConnect HOST] = Raises (OSError "Connection refused") /\
  outcome (view_email HOST ALICE SECRET sample_parser identity_decode unreachable
                      "1" "INBOX") = Raise (UnboundLocalError "mail") /\
  outcome (check_unseen HOST ALICE SECRET sample_parser unreachable) =
    Raise (UnboundLocalError "mail").
Proof.
  split; [reflexivity|].
  pose proof (connect_failure_is_masked HOST ALICE SECRET sample_parser identity_decode
                unreachable (OSError "Connection refused") eq_refl)
    as (Hview & _ & _ & _ & Hunseen & _).
  split; [apply Hview | exact Hunseen].
Defined.

Lemma move_email_flags_after_refused_copy_witness :
  no_such_target (CCopy (IdStr "7") "Archive" :: opened HOST ALICE SECRET "INBOX") =
    Returns "NO" [RBytes (b_ "[TRYCREATE] Mailbox does not exist")] /\
  outcome (move_email HOST ALICE SECRET no_such_target "7" "Archive") =
    Return {| m_status := "success"; m_email_id := "7";
              m_target_mailbox := "Archive" |} /\
  calls (move_email HOST ALICE SECRET no_such_target "7" "Archive") =
    [CConnect HOST; CLogin ALICE SECRET; CSelect "INBOX";
     CCopy (IdStr "7") "Archive";
     CStore (IdStr "7") "+FLAGS" "(DELETED)"; CExpunge; CLogout].
Proof.
  split; [reflexivity|].
  apply (move_email_flags_after_refused_copy HOST ALICE SECRET no_such_target
           "7" "Archive" "NO" [RBytes (b_ "[TRYCREATE] Mailbox does not exist")]).
  - intros [|[] h]; reflexivity.
  - reflexivity.
  - discriminate.
Defined.

Lemma search_emails_sentinel_witness :
  session_opens HOST ALICE SECRET refusing "INBOX" = true /\
  outcome (search_emails HOST ALICE SECRET sample_parser refusing
                         "SINCE" "yesterday" "INBOX") =
    Return (NoMatch ["No matching emails found."]).
Proof.
  split; [reflexivity|].
  apply (search_emails_sentinel HOST ALICE SECRET sample_parser refusing
           "SINCE" "yesterday" "INBOX" "NO" [RBytes (b_ "Invalid search")]).
  - reflexivity.
  - reflexivity.
  - discriminate.
Defined.



Lemma list_mailboxes_names_witness :
  Forall well_framed [inbox_entry; sent_entry] /\
  outcome (list_mailboxes HOST ALICE SECRET two_mailboxes) =
    Return [quoted "INBOX"; quoted "SentItems"].
Proof.
  assert (Hframed : Forall well_framed [inbox_entry; sent_entry]).
  { repeat constructor; discriminate. }
  split; [exact Hframed|].
  exact (list_mailboxes_names HOST ALICE SECRET two_mailboxes
           [inbox_entry; sent_entry] "OK" eq_refl eq_refl eq_refl eq_refl Hframed).
Defined.

Example one_vanished_summaries :
  outcome (check_unseen HOST ALICE SECRET sample_parser one_vanished) =
    Return [(b_ "1", {| Subject := Some "Hello";
                        Date := Some "Mon, 2 Nov 2026 10:00:00 +0000" |})] /\
  calls (check_unseen HOST ALICE SECRET sample_parser one_vanished) =
    summary_calls HOST ALICE SECRET "INBOX" ["UNSEEN"] [b_ "1"; b_ "2"].
Proof. split; reflexivity. Qed.

Lemma failed_fetches_are_skipped_witness :
  never_raises one_vanished /\
  one_vanished (CSearch None ["UNSEEN"] :: opened HOST ALICE SECRET "INBOX") =
    Returns "OK" [RBytes (b_ "1 2")] /\
  bytes_split (b_ "1 2") = [b_ "1"; b_ "2"] /\
  (exists d,
      outcome (check_unseen HOST ALICE SECRET sample_parser one_vanished) = Return d /\
      calls (check_unseen HOST ALICE SECRET sample_parser one_vanished) =
        summary_calls HOST ALICE SECRET "INBOX" ["UNSEEN"] (bytes_split (b_ "1 2")) /\
      (forall id,
          In id (keys d) <->
          fetch_reported_ok one_vanished
            (calls (check_unseen HOST ALICE SECRET sample_parser one_vanished)) id) /\
      (forall id,
          In id (bytes_split (b_ "1 2")) ->
          ~ fetch_reported_ok one_vanished
              (calls (check_unseen HOST ALICE SECRET sample_parser one_vanished)) id ->
          ~ In id (keys d))) /\
  (exists d,
      outcome (search_emails HOST ALICE SECRET sample_parser one_vanished
                             "ALL" "" "INBOX") = Return (Matches d) /\
      calls (search_emails HOST ALICE SECRET sample_parser one_vanished
                           "ALL" "" "INBOX") =
        summary_calls HOST ALICE SECRET "INBOX" ["ALL"; ""] (bytes_split (b_ "1 2")) /\
      (forall id,
          In id (keys d) <->
          fetch_reported_ok one_vanished
            (calls (search_emails HOST ALICE SECRET sample_parser one_vanished
                                  "ALL" "" "INBOX")) id) /\
      (forall id,
          In id (bytes_split (b_ "1 2")) ->
          ~ fetch_reported_ok one_vanished
              (calls (search_emails HOST ALICE SECRET sample_parser one_vanished
                                    "ALL" "" "INBOX")) id ->
          ~ In id (keys d))).
Proof.
  assert (Hsrv : never_raises one_vanished).
  { intros [|[] h]; try reflexivity.
    unfold answers, one_vanished. destruct (names_message message_set "2"); reflexivity. }
  assert (Hok : ok_fetch_carries_message one_vanished).
  { intros h ids parts data H. unfold one_vanished in H.
    destruct (names_message ids "2"); [discriminate H|].
    injection H as <-. eauto. }
  split; [exact Hsrv|]. split; [reflexivity|]. split; [reflexivity|].
  exact (failed_fetches_are_skipped HOST ALICE SECRET sample_parser one_vanished
           Hsrv Hok "ALL" "" "INBOX" "OK" (b_ "1 2") (b_ "1 2") [] [] eq_refl eq_refl).
Defined.

(** Counterexample for C5 as the specification words it: on a server
    with two unseen messages the fetches of [check_unseen] and of
    [search_emails] are not header-only fetches. *)
Lemma summaries_fetch_the_body :
  ~ (forall c,
        In c (calls (check_unseen HOST ALICE SECRET sample_parser friendly)) ->
        fetches_headers_only c = true) /\
  ~ (forall c,
        In c (calls (search_emails HOST ALICE SECRET sample_parser friendly
                                   "SUBJECT" "Invoice" "INBOX")) ->
        fetches_headers_only c = true).
Proof.
  split; intros H;
    specialize (H (CFetch (IdBytes (b_ "1")) "(RFC822)"));
    cbn in H; discriminate H; do 4 right; left; reflexivity.
Qed.


(* ===================================================================== *)
(** ** Start-up *)
(* ===================================================================== *)

Lemma falsy_false (v : option str) :
  falsy v = false <-> exists s, v = Some s /\ s <> "".
Proof.
  destruct v as [s|]; cbn [falsy].
  - destruct (String.eqb_spec s "") as [->|Hs]; split.
    + discriminate.
    + intros (s' & H & Hs'). injection H as <-. contradiction Hs'. reflexivity.
    + eauto.
    + reflexivity.
  - split; [discriminate | intros (s & H & _); discriminate H].
Qed.

(** X1. The module serves its tools exactly when IMAP_USER, IMAP_PASSWORD
    and IMAP_SERVER are all set to a text that is not empty, and then
    with these three values; otherwise the import ends in a [ValueError]
    that names the first of the three, in this order, that is unset or
    empty. *)
Theorem module_start_needs_all_three (getenv : str -> option str) :
  (forall u p s,
      module_start getenv = Serving u p s <->
      getenv "IMAP_USER" = Some u /\ u <> "" /\
      getenv "IMAP_PASSWORD" = Some p /\ p <> "" /\
      getenv "IMAP_SERVER" = Some s /\ s <> "") /\
  (forall msg,
      module_start getenv = ValueError msg ->
      (msg = "IMAP_USER is not set or is empty" /\
       falsy (getenv "IMAP_USER") = true) \/
      (msg = "IMAP_PASSWORD is not set or is empty" /\
       falsy (getenv "IMAP_USER") = false /\
       falsy (getenv "IMAP_PASSWORD") = true) \/
      (msg = "IMAP_SERVER is not set or is empty" /\
       falsy (getenv "IMAP_USER") = false /\
       falsy (getenv "IMAP_PASSWORD") = false /\
       falsy (getenv "IMAP_SERVER") = true)).
Proof.
  unfold module_start. split.
  - intros u p s. split.
    + destruct (falsy (getenv "IMAP_USER")) eqn:Hu; [discriminate|].
      destruct (falsy (getenv "IMAP_PASSWORD")) eqn:Hp; [discriminate|].
      destruct (falsy (getenv "IMAP_SERVER")) eqn:Hs; [discriminate|].
      apply falsy_false in Hu as (u' & -> & Hu).
      apply falsy_false in Hp as (p' & -> & Hp).
      apply falsy_false in Hs as (s' & -> & Hs).
      cbn [text_of]. intros H. injection H as <- <- <-. auto 7.
    + intros (-> & Hu & -> & Hp & -> & Hs).
      rewrite (proj2 (falsy_false (Some u))), (proj2 (falsy_false (Some p))),
        (proj2 (falsy_false (Some s))) by eauto.
      reflexivity.
  - intros msg.
    destruct (falsy (getenv "IMAP_USER")); [intros H; injection H as <-; auto|].
    destruct (falsy (getenv "IMAP_PASSWORD")); [intros H; injection H as <-; auto|].
    destruct (falsy (getenv "IMAP_SERVER")); [intros H; injection H as <-; auto 6|].
    discriminate.
Qed.

Example full_env_serves : module_start full_env = Serving ALICE SECRET HOST.
Proof. reflexivity. Qed.

(* ===================================================================== *)
(** ** More on body extraction *)
(* ===================================================================== *)

Section ExtractBodyMore.

Variable transfer_decode : str -> bytes -> bytes.

Lemma last_in (A : Type) (l : list A) (d : A) : l <> [] -> In (last l d) l.
Proof.
  induction l as [|a l IH]; intros Hl; [contradiction Hl; reflexivity|].
  destruct l as [|b l]; [left; reflexivity|].
  right. apply IH. discriminate.
Qed.

(** What the loop can end with, started with an empty body: it stopped
    at the first part with text, or it passed over every part. *)
Lemma walk_loop_ends (ps : list Message) (ct : option str) (body : str) (ct' : option str) :
  walk_loop transfer_decode ps "" ct = (body, ct') ->
  (body <> "" /\
   exists pre p post,
     ps = pre ++ p :: post /\
     (forall q, In q pre -> gives_no_text transfer_decode q) /\
     part_text transfer_decode p = Return body /\
     ct' = Some (get_content_type p))
  \/
  (body = "" /\ (forall q, In q ps -> gives_no_text transfer_decode q)).
Proof.
  revert ct. induction ps as [|p ps IH]; intros ct H.
  - cbn in H. injection H as <- _. right. split; [reflexivity|]. intros q [].
  - cbn [walk_loop] in H.
    destruct (part_text transfer_decode p) as [b|e] eqn:Hp.
    + destruct (String.eqb_spec b "") as [->|Hb].
      * destruct (IH _ H) as [(Hbody & pre & p0 & post & -> & Hpre & Hp0 & Hct) | (Hbody & Hall)].
        -- left. split; [exact Hbody|]. exists (p :: pre), p0, post.
           repeat split; try assumption.
           intros q [<- | Hq]; [left; exact Hp | apply Hpre, Hq].
        -- right. split; [exact Hbody|].
           intros q [<- | Hq]; [left; exact Hp | apply Hall, Hq].
      * injection H as <- <-. left. split; [exact Hb|].
        exists [], p, ps. repeat split; try assumption. intros q [].
    + destruct (IH _ H) as [(Hbody & pre & p0 & post & -> & Hpre & Hp0 & Hct) | (Hbody & Hall)].
      * left. split; [exact Hbody|]. exists (p :: pre), p0, post.
        repeat split; try assumption.
        intros q [<- | Hq]; [right; eauto | apply Hpre, Hq].
      * right. split; [exact Hbody|].
        intros q [<- | Hq]; [right; eauto | apply Hall, Hq].
Qed.

(** X2. On a multipart message [extract_body] never raises, whatever its
    parts hold; the content type it returns is that of a part of the
    message, and a body that is not empty is the decoded text of that
    very part. *)
Theorem extract_body_multipart_from_a_part (m : Message) :
  is_multipart m = true ->
  exists body p,
    extract_body transfer_decode m = Return (body, get_content_type p) /\
    In p (walk m) /\
    (body <> "" -> part_text transfer_decode p = Return body).
Proof.
  intros Hm.
  destruct (extract_body_multipart_returns transfer_decode m Hm) as (body & ct & Hret).
  pose proof Hret as Hrun. unfold extract_body in Hrun. rewrite Hm in Hrun.
  destruct (walk_loop transfer_decode (walk m) "" None) as [b [c|]] eqn:Hloop;
    [|discriminate Hrun].
  injection Hrun as -> ->.
  destruct (walk_loop_ends _ _ _ _ Hloop)
    as [(Hbody & pre & p & post & Hw & Hpre & Hp & Hct) | (Hbody & Hall)].
  - injection Hct as ->. exists body, p. rewrite Hret, Hw.
    repeat split; [apply in_or_app; right; left; reflexivity | intros _; exact Hp].
  - exists body, (last (walk m) m).
    rewrite (proj1 (proj2 (extract_body_multipart transfer_decode m Hm)) Hall) in Hret.
    injection Hret as <- <-. split; [|split].
    + apply (proj1 (proj2 (extract_body_multipart transfer_decode m Hm)) Hall).
    + apply last_in. destruct (walk_starts_with_itself m) as [rest ->]. discriminate.
    + intros Hne. exfalso. apply Hne. reflexivity.
Qed.

(** X3. On a multipart message the body [extract_body] returns is empty
    exactly when no part of the message gives text: each one raises on
    decoding or decodes to the empty text. *)
Theorem extract_body_multipart_empty_body (m : Message) (body content_type : str) :
  is_multipart m = true ->
  extract_body transfer_decode m = Return (body, content_type) ->
  (body = "" <-> forall q, In q (walk m) -> gives_no_text transfer_decode q).
Proof.
  intros Hm Hret. split.
  - intros ->. unfold extract_body in Hret. rewrite Hm in Hret.
    destruct (walk_loop transfer_decode (walk m) "" None) as [b [c|]] eqn:Hloop;
      [|discriminate Hret].
    injection Hret as -> ->.
    destruct (walk_loop_ends _ _ _ _ Hloop) as [(Hbody & _) | (_ & Hall)];
      [contradiction Hbody; reflexivity | exact Hall].
  - intros Hall.
    rewrite (proj1 (proj2 (extract_body_multipart transfer_decode m Hm)) Hall) in Hret.
    injection Hret as <- _. reflexivity.
Qed.

End ExtractBodyMore.

Lemma extract_body_multipart_from_a_part_witness :
  is_multipart nested_parts = true /\
  exists body p,
    extract_body identity_decode nested_parts = Return (body, get_content_type p) /\
    In p (walk nested_parts) /\
    (body <> "" -> part_text identity_decode p = Return body).
Proof.
  split; [reflexivity|].
  exact (extract_body_multipart_from_a_part identity_decode nested_parts eq_refl).
Defined.

Lemma extract_body_multipart_empty_body_witness :
  extract_body identity_decode no_text_parts = Return ("", "image/png") /\
  ("" = "" <-> forall q, In q (walk no_text_parts) -> gives_no_text identity_decode q).
Proof.
  split; [reflexivity|].
  exact (extract_body_multipart_empty_body identity_decode no_text_parts "" "image/png"
           eq_refl eq_refl).
Defined.

(* ===================================================================== *)
(** ** More on the session: connects, logouts, errors, mutations *)
(* ===================================================================== *)

(** No fetch of the loop passes a test that fails on every fetch. *)
Lemma filter_fetches (p : command -> bool) (l : list bytes) :
  (forall id, p (fetch_cmd id) = false) ->
  filter p (rev (map fetch_cmd l)) = [].
Proof.
  intros Hp. rewrite filter_rev.
  induction l as [|id l IH]; [reflexivity|].
  cbn [map filter]. rewrite (Hp id). exact IH.
Qed.

(** Count the connects or logouts of a trace written out. *)
Ltac count_calls :=
  unfold connects, logouts; rewrite filter_rev, length_rev;
  cbn [filter is_connect is_logout];
  rewrite ?filter_app, ?(filter_fetches is_connect), ?(filter_fetches is_logout)
    by reflexivity;
  reflexivity.

(** A server that is assumed to answer cannot have raised. *)
Ltac no_raise Hsrv :=
  match goal with
  | H : ?srv ?h = Raises _ |- _ =>
    let Hh := fresh in
    pose proof (Hsrv h) as Hh; unfold answers in Hh; rewrite H in Hh; discriminate Hh
  end.

(** The same for a server whose logouts are assumed to answer. *)
Ltac no_logout_raise Hlogout :=
  match goal with
  | H : ?srv (CLogout :: ?h) = Raises _ |- _ =>
    let Hh := fresh in
    pose proof (Hlogout h) as Hh; unfold answers in Hh; rewrite H in Hh; discriminate Hh
  end.

Section SessionMore.

Variables SERVER USER PASSWORD : str.
Variable message_from_bytes : bytes -> Message.
Variable transfer_decode : str -> bytes -> bytes.
Variable srv : server.

Notation view_email :=
  (view_email SERVER USER PASSWORD message_from_bytes transfer_decode srv).
Notation delete_email := (delete_email SERVER USER PASSWORD srv).
Notation move_email := (move_email SERVER USER PASSWORD srv).
Notation list_mailboxes := (list_mailboxes SERVER USER PASSWORD srv).
Notation check_unseen := (check_unseen SERVER USER PASSWORD message_from_bytes srv).
Notation search_emails := (search_emails SERVER USER PASSWORD message_from_bytes srv).
Notation opened := (opened SERVER USER PASSWORD).
Notation session_opens := (session_opens SERVER USER PASSWORD srv).

(** X4. Whatever the server does and however the invocation ends, each of
    the six tools calls [IMAP4_SSL] exactly once. *)
Theorem one_connect_per_invocation :
  (forall email_id mailbox, connects (calls (view_email email_id mailbox)) = 1) /\
  (forall email_id mailbox, connects (calls (delete_email email_id mailbox)) = 1) /\
  (forall email_id target_mailbox,
      connects (calls (move_email email_id target_mailbox)) = 1) /\
  connects (calls list_mailboxes) = 1 /\
  connects (calls check_unseen) = 1 /\
  (forall criterion value mailbox,
      connects (calls (search_emails criterion value mailbox)) = 1).
Proof.
  repeat split; intros; unfold_tool;
    repeat first [frame_known | loop_case | next_case]; count_calls.
Qed.

(** X5. Once the connection is made, and as long as no logout raises,
    [delete_email], [move_email], [list_mailboxes] and [check_unseen]
    log out exactly once, whether they return or raise. *)
Theorem logout_exactly_once (email_id mailbox target_mailbox : str) :
  answers srv [CConnect SERVER] = true ->
  (forall h, answers srv (CLogout :: h) = true) ->
  logouts (calls (delete_email email_id mailbox)) = 1 /\
  logouts (calls (move_email email_id target_mailbox)) = 1 /\
  logouts (calls list_mailboxes) = 1 /\
  logouts (calls check_unseen) = 1.
Proof.
  intros Hconnect Hlogout. known_answers.
  repeat split; unfold_tool; run_known;
    repeat (first [frame_known | loop_case | next_case]; try no_logout_raise Hlogout);
    count_calls.
Qed.

(** X6. When the logout that ends [delete_email] raises, the handler
    calls [mail.logout()] a second time on the same connection; if that
    one comes back, the exception of the first is raised. *)
Theorem failed_logout_is_repeated (email_id mailbox : str) (e : exn) :
  session_opens mailbox = true ->
  answers srv (CStore (IdStr email_id) "+FLAGS" "(DELETED)" :: opened mailbox) = true ->
  answers srv (CExpunge :: CStore (IdStr email_id) "+FLAGS" "(DELETED)"
                 :: opened mailbox) = true ->
  srv (CLogout :: CExpunge :: CStore (IdStr email_id) "+FLAGS" "(DELETED)"
         :: opened mailbox) = Raises e ->
  answers srv (CLogout :: CLogout :: CExpunge
                 :: CStore (IdStr email_id) "+FLAGS" "(DELETED)"
                 :: opened mailbox) = true ->
  outcome (delete_email email_id mailbox) = Raise e /\
  calls (delete_email email_id mailbox) =
    [CConnect SERVER; CLogin USER PASSWORD; CSelect mailbox;
     CStore (IdStr email_id) "+FLAGS" "(DELETED)"; CExpunge; CLogout; CLogout].
Proof.
  intros. known_answers. unfold_tool. run_known. split; reflexivity.
Qed.

(** X7. When [mail.login] raises and the logout of the handler comes
    back, each of the six tools logs out and raises the exception of the
    login: a rejected password is reported as such. *)
Theorem login_failure_is_reported (e : exn) :
  answers srv [CConnect SERVER] = true ->
  srv [CLogin USER PASSWORD; CConnect SERVER] = Raises e ->
  answers srv [CLogout; CLogin USER PASSWORD; CConnect SERVER] = true ->
  (forall email_id mailbox,
      outcome (view_email email_id mailbox) = Raise e /\
      calls (view_email email_id mailbox) =
        [CConnect SERVER; CLogin USER PASSWORD; CLogout]) /\
  (forall email_id mailbox,
      outcome (delete_email email_id mailbox) = Raise e /\
      calls (delete_email email_id mailbox) =
        [CConnect SERVER; CLogin USER PASSWORD; CLogout]) /\
  (forall email_id target_mailbox,
      outcome (move_email email_id target_mailbox) = Raise e /\
      calls (move_email email_id target_mailbox) =
        [CConnect SERVER; CLogin USER PASSWORD; CLogout]) /\
  (outcome list_mailboxes = Raise e /\
   calls list_mailboxes = [CConnect SERVER; CLogin USER PASSWORD; CLogout]) /\
  (outcome check_unseen = Raise e /\
   calls check_unseen = [CConnect SERVER; CLogin USER PASSWORD; CLogout]) /\
  (forall criterion value mailbox,
      outcome (search_emails criterion value mailbox) = Raise e /\
      calls (search_emails criterion value mailbox) =
        [CConnect SERVER; CLogin USER PASSWORD; CLogout]).
Proof.
  intros. known_answers.
  repeat split; intros; unfold_tool; run_known; reflexivity.
Qed.

(** X8. Once connected, and as long as no logout raises, an exception
    that [delete_email] or [move_email] raises is the one raised by the
    last call made before the logout of the handler: nothing else is
    raised and no call follows the failed one. *)
Theorem mutation_errors_come_from_the_failed_call
        (email_id mailbox target_mailbox : str) (e : exn) :
  answers srv [CConnect SERVER] = true ->
  (forall h, answers srv (CLogout :: h) = true) ->
  (outcome (delete_email email_id mailbox) = Raise e ->
   exists c h,
     srv (c :: h) = Raises e /\
     calls (delete_email email_id mailbox) = rev (c :: h) ++ [CLogout]) /\
  (outcome (move_email email_id target_mailbox) = Raise e ->
   exists c h,
     srv (c :: h) = Raises e /\
     calls (move_email email_id target_mailbox) = rev (c :: h) ++ [CLogout]).
Proof.
  intros Hconnect Hlogout. known_answers.
  split; unfold_tool; run_known;
    repeat (next_case; try no_logout_raise Hlogout);
    intros H; try discriminate H; injection H as <-;
    match goal with
    | Hr : srv (?c :: ?h) = Raises ?e |- exists _ _, srv _ = Raises ?e /\ _ =>
      exists c, h; split; [exact Hr | reflexivity]
    end.
Qed.

(** Every call in a trace written out passes the test [p]. *)
Ltac all_calls :=
  intros Hin; apply in_rev in Hin; cbn [In] in Hin;
  repeat match goal with
         | H : _ \/ _ |- _ => destruct H as [H | H]
         | H : In _ (_ ++ _) |- _ => apply in_app_or in H
         | H : In _ (rev _) |- _ => apply in_rev in H
         | H : In _ (map fetch_cmd _) |- _ =>
           apply in_map_iff in H; destruct H as (? & H & _); unfold fetch_cmd in H
         | H : In _ (_ :: _) |- _ => cbn [In] in H
         | H : In _ [] |- _ => destruct H
         | H : False |- _ => destruct H
         end.

(** X9. Whatever the server does, [view_email], [list_mailboxes],
    [check_unseen] and [search_emails] never call [mail.store],
    [mail.expunge] or [mail.copy]. *)
Theorem readers_never_mutate :
  (forall email_id mailbox c,
      In c (calls (view_email email_id mailbox)) -> is_mutation c = false) /\
  (forall c, In c (calls list_mailboxes) -> is_mutation c = false) /\
  (forall c, In c (calls check_unseen) -> is_mutation c = false) /\
  (forall criterion value mailbox c,
      In c (calls (search_emails criterion value mailbox)) -> is_mutation c = false).
Proof.
  repeat split; intros until c; unfold_tool;
    repeat first [frame_known | loop_case | next_case];
    all_calls; subst; reflexivity.
Qed.

(** X10. Whatever the server does, the only flag [delete_email] and
    [move_email] set is [+FLAGS (DELETED)] on the message id they were
    given, and they expunge only after that store came back;
    [move_email] stores only after the copy came back. *)
Theorem only_the_given_message_is_flagged (email_id mailbox target_mailbox : str) :
  (forall ids cmd flags,
      In (CStore ids cmd flags) (calls (delete_email email_id mailbox)) ->
      CStore ids cmd flags = CStore (IdStr email_id) "+FLAGS" "(DELETED)") /\
  (forall ids cmd flags,
      In (CStore ids cmd flags) (calls (move_email email_id target_mailbox)) ->
      CStore ids cmd flags = CStore (IdStr email_id) "+FLAGS" "(DELETED)") /\
  (In CExpunge (calls (delete_email email_id mailbox)) ->
   answers srv (CStore (IdStr email_id) "+FLAGS" "(DELETED)" :: opened mailbox) = true) /\
  (In CExpunge (calls (move_email email_id target_mailbox)) ->
   answers srv (CStore (IdStr email_id) "+FLAGS" "(DELETED)"
                  :: CCopy (IdStr email_id) target_mailbox :: opened "INBOX") = true) /\
  (In (CStore (IdStr email_id) "+FLAGS" "(DELETED)")
      (calls (move_email email_id target_mailbox)) ->
   answers srv (CCopy (IdStr email_id) target_mailbox :: opened "INBOX") = true).
Proof.
  unfold answers. unfold_calls.
  repeat split; intros *; unfold_tool;
    repeat next_case; all_calls;
    try discriminate; try (symmetry; assumption);
    repeat match goal with
           | H : srv ?h = Returns _ _ |- context [srv ?h] => rewrite H
           end; reflexivity.
Qed.

(** X11. [delete_email] does not look at any status: when no call
    raises, it makes its six calls and reports success, whatever the
    server answered to the store and to the expunge. *)
Theorem delete_email_reports_success (email_id mailbox : str) :
  never_raises srv ->
  outcome (delete_email email_id mailbox) =
    Return {| d_status := "success"; d_email_id := email_id; d_mailbox := mailbox |} /\
  calls (delete_email email_id mailbox) =
    [CConnect SERVER; CLogin USER PASSWORD; CSelect mailbox;
     CStore (IdStr email_id) "+FLAGS" "(DELETED)"; CExpunge; CLogout].
Proof.
  intros Hsrv. unfold_tool.
  repeat (next_case; try no_raise Hsrv). split; reflexivity.
Qed.

End SessionMore.

(* ===================================================================== *)
(** ** More on [view_email] and [list_mailboxes] *)
(* ===================================================================== *)

Section ViewMore.

Variables SERVER USER PASSWORD : str.
Variable message_from_bytes : bytes -> Message.
Variable transfer_decode : str -> bytes -> bytes.
Variable srv : server.

Notation view_email :=
  (view_email SERVER USER PASSWORD message_from_bytes transfer_decode srv).
Notation opened := (opened SERVER USER PASSWORD).
Notation session_opens := (session_opens SERVER USER PASSWORD srv).

(** X12. When the fetch is answered [OK] with the message as the literal
    of its first data item, [view_email] returns the Subject and From
    headers of the parsed message with the body and content type
    [extract_body] gives for it; when [extract_body] raises (a single
    part that is not UTF-8), that exception is raised after the logout
    of the handler. *)
Theorem view_email_returns_the_parsed_message
        (email_id mailbox : str) (a b : bytes) (rest : list resp_item) :
  session_opens mailbox = true ->
  srv (CFetch (IdStr email_id) "(RFC822)" :: opened mailbox) =
    Returns "OK" (RTuple a b :: rest) ->
  (forall body type,
      extract_body transfer_decode (message_from_bytes b) = Return (body, type) ->
      outcome (view_email email_id mailbox) =
        Return {| v_subject := get_header (msg_headers (message_from_bytes b)) "Subject";
                  v_from := get_header (msg_headers (message_from_bytes b)) "From";
                  v_body := body;
                  v_type := type |}) /\
  (forall e,
      extract_body transfer_decode (message_from_bytes b) = Raise e ->
      answers srv (CLogout :: CFetch (IdStr email_id) "(RFC822)" :: opened mailbox) = true ->
      outcome (view_email email_id mailbox) = Raise e /\
      logouts (calls (view_email email_id mailbox)) = 1).
Proof.
  intros Hopen Hfetch. split.
  - intros body type Hbody. known_answers. unfold_tool. run_known.
    cbn [String.eqb Ascii.eqb Bool.eqb index0 index1 message_from].
    rewrite Hbody. reflexivity.
  - intros e Hbody Hlogout. known_answers. unfold_tool. run_known.
    cbn [String.eqb Ascii.eqb Bool.eqb index0 index1 message_from].
    rewrite Hbody. cbn [trace mail fst snd]. run_known. split; reflexivity.
Qed.

(** X13. When the fetch is answered [OK] without a message ([None] as
    first data item, which is what [imaplib] returns for an id that is
    not in the mailbox), [view_email] raises [TypeError] from
    [data[0][1]], not the not-found exception. *)
Theorem view_email_of_an_absent_message
        (email_id mailbox : str) (rest : list resp_item) :
  session_opens mailbox = true ->
  srv (CFetch (IdStr email_id) "(RFC822)" :: opened mailbox) =
    Returns "OK" (RNone :: rest) ->
  answers srv (CLogout :: CFetch (IdStr email_id) "(RFC822)" :: opened mailbox) = true ->
  outcome (view_email email_id mailbox) = Raise TypeError /\
  calls (view_email email_id mailbox) =
    [CConnect SERVER; CLogin USER PASSWORD; CSelect mailbox;
     CFetch (IdStr email_id) "(RFC822)"; CLogout].
Proof.
  intros. known_answers. unfold_tool. run_known.
  cbn [String.eqb Ascii.eqb Bool.eqb index0 index1 trace mail fst snd].
  run_known. split; reflexivity.
Qed.

End ViewMore.

Lemma remove_spaces_space_free (s : str) : space_free (remove_spaces s) = true.
Proof.
  induction s as [|c s IH]; [reflexivity|].
  cbn [remove_spaces]. destruct (Ascii.eqb c " ") eqn:Hc; [exact IH|].
  cbn [space_free]. rewrite Hc, IH. reflexivity.
Qed.

Lemma mailbox_of_item_space_free (item : resp_item) (name : str) :
  mailbox_of_item item = Return name -> space_free name = true.
Proof.
  unfold mailbox_of_item.
  destruct (item_decode item) as [line|]; [|discriminate].
  destruct (list_index1 _) as [piece|]; [|discriminate].
  intros H. injection H as <-. apply remove_spaces_space_free.
Qed.

(** What a comprehension that went through returns: one element per
    element of the list, each the value of the expression. *)
Lemma comprehension_returns {A B} (f : A -> result B) (l : list A) (ys : list B) :
  comprehension f l = Return ys ->
  Forall2 (fun x y => f x = Return y) l ys.
Proof.
  revert ys. induction l as [|x l IH]; intros ys H; cbn [comprehension] in H.
  - injection H as <-. constructor.
  - destruct (f x) as [y|] eqn:Hx; [|discriminate H].
    destruct (comprehension f l) as [ys'|]; [|discriminate H].
    injection H as <-. constructor; [exact Hx | apply IH; reflexivity].
Qed.

(** The comprehension stops at the first element that raises. *)
Lemma comprehension_raises {A B} (f : A -> result B) (x : A) (l : list A) (e : exn) :
  f x = Raise e -> comprehension f (x :: l) = Raise e.
Proof. intros H. cbn [comprehension]. rewrite H. reflexivity. Qed.

Lemma mailbox_names_space_free (data : list resp_item) (names : list str) :
  Forall2 (fun item name => mailbox_of_item item = Return name) data names ->
  Forall (fun name => space_free name = true) names.
Proof.
  induction 1; constructor; eauto using mailbox_of_item_space_free.
Qed.

Section ListMore.

Variables SERVER USER PASSWORD : str.
Variable srv : server.

Notation list_mailboxes := (list_mailboxes SERVER USER PASSWORD srv).

(** X14. Whatever the server does, when [list_mailboxes] returns it
    returns one name per line of the LIST answer, each the value of the
    comprehension for its line, and no name holds a space: a mailbox
    whose name has spaces comes back without them. *)
Theorem list_mailboxes_one_name_per_line (names : list str) :
  outcome list_mailboxes = Return names ->
  exists status data,
    srv [CList; CLogin USER PASSWORD; CConnect SERVER] = Returns status data /\
    Forall2 (fun item name => mailbox_of_item item = Return name) data names /\
    Forall (fun name => space_free name = true) names.
Proof.
  unfold_tool. repeat next_case; intros H; try discriminate H.
  injection H as <-.
  match goal with
  | Hl : srv [CList; _; _] = Returns ?st ?data,
    Hc : comprehension _ ?data = Return _ |- _ =>
    apply comprehension_returns in Hc;
      exists st, data; split; [reflexivity|]; split;
        [exact Hc | exact (mailbox_names_space_free _ _ Hc)]
  end.
Qed.

(** X15. A LIST line that holds no [DOT_TOKEN] separator, as on a server
    whose hierarchy delimiter is not the dot, makes [list_mailboxes]
    raise [IndexError]: the split gives one piece and piece 1 is
    missing.  The tool logs out once before raising. *)
Theorem list_mailboxes_without_separator
        (status : str) (line : bytes) (rest : list resp_item) :
  answers srv [CConnect SERVER] = true ->
  answers srv [CLogin USER PASSWORD; CConnect SERVER] = true ->
  srv [CList; CLogin USER PASSWORD; CConnect SERVER] =
    Returns status (RBytes line :: rest) ->
  utf8_valid line = true ->
  token_free (string_of_list_byte line) = true ->
  answers srv [CLogout; CList; CLogin USER PASSWORD; CConnect SERVER] = true ->
  outcome list_mailboxes = Raise IndexError /\
  calls list_mailboxes = [CConnect SERVER; CLogin USER PASSWORD; CList; CLogout].
Proof.
  intros Hconnect Hlogin Hlist Hutf Hfree Hlogout. known_answers.
  unfold_tool. run_known.
  rewrite (comprehension_raises mailbox_of_item (RBytes line) rest IndexError).
  - cbn [trace mail fst snd]. run_known. split; reflexivity.
  - unfold mailbox_of_item, item_decode, bytes_decode. rewrite Hutf.
    unfold str_split. rewrite (split_go_token_free _ "" Hfree). reflexivity.
Qed.

End ListMore.

(* ===================================================================== *)
(** ** More on the summaries *)
(* ===================================================================== *)


(** A branch of the run that cannot end in a result. *)
Ltac dead_end :=
  solve [repeat first [frame_known | loop_case | next_case]; intros; discriminate].

(** The next call of the run, in the case where it comes back. *)
Ltac live_case := next_case; [ | dead_end ].

Lemma dict_set_In (d : dict) (k0 : bytes) (v0 : Summary) (k : bytes) (v : Summary) :
  In (k, v) (dict_set d k0 v0) -> (k = k0 /\ v = v0) \/ In (k, v) d.
Proof.
  induction d as [|[k' v'] d IH]; cbn [dict_set].
  - intros [H | []]. injection H as <- <-. auto.
  - destruct (bytes_eq_dec k' k0) as [->|Hne].
    + intros [H | H]; [injection H as <- <-; auto | right; right; exact H].
    + intros [H | H]; [right; left; exact H|].
      destruct (IH H) as [Hk | Hd]; [auto | right; right; exact Hd].
Qed.

(** Assigning to a key keeps every key at one place. *)
Lemma dict_set_NoDup (d : dict) (k : bytes) (v : Summary) :
  NoDup (keys d) -> NoDup (keys (dict_set d k v)).
Proof.
  induction d as [|[k' v'] d IH]; cbn [dict_set keys map fst]; intros Hd.
  - constructor; [intros [] | constructor].
  - destruct (bytes_eq_dec k' k) as [->|Hne]; [exact Hd|].
    inversion Hd as [|? ? Hnotin Hd']; subst.
    cbn [map fst]. constructor; [|apply IH; exact Hd'].
    intros Hin. apply dict_set_keys in Hin as [Hk | Hin]; [congruence | contradiction].
Qed.

(** A line of nothing but whitespace holds no id. *)
Lemma bytes_split_blank (line : bytes) :
  forallb is_space line = true -> bytes_split line = [].
Proof.
  unfold bytes_split. induction line as [|c line IH]; [reflexivity|].
  cbn [forallb ws_split_go]. intros H. apply andb_true_iff in H as [Hc Hline].
  rewrite Hc. exact (IH Hline).
Qed.

Section LoopMore.

Variable message_from_bytes : bytes -> Message.
Variable srv : server.

Notation loop := (fetch_loop message_from_bytes srv).

Lemma parse_fetched_returns (data : list resp_item) (f f2 : frame) (msg : Message) :
  parse_fetched message_from_bytes data f = (Return msg, f2) ->
  f2 = f /\ exists a b rest, data = RTuple a b :: rest /\ msg = message_from_bytes b.
Proof.
  unfold parse_fetched, bind, lift.
  destruct data as [|[|b|a b] rest]; cbn [index0 index1 message_from];
    try discriminate.
  - destruct (nth_error b 1); discriminate.
  - intros H. injection H as <- <-. eauto 6.
Qed.

(** What a loop that ran to its end did, whatever the server: one fetch
    per id, in order; the keys stay distinct; every entry was there
    before or is the summary of a message an [OK] fetch of its id
    carried. *)
Lemma fetch_loop_returns (ids : list bytes) (acc acc' : dict) (f f' : frame) :
  loop ids acc f = (Return acc', f') ->
  trace f' = rev (map fetch_cmd ids) ++ trace f /\
  mail f' = mail f /\
  (NoDup (keys acc) -> NoDup (keys acc')) /\
  forall id v,
    In (id, v) acc' ->
    In (id, v) acc \/
    exists pre post a b rest,
      ids = pre ++ id :: post /\
      srv (fetch_cmd id :: rev (map fetch_cmd pre) ++ trace f) =
        Returns "OK" (RTuple a b :: rest) /\
      v = summary_of (message_from_bytes b).
Proof.
  revert acc f. induction ids as [|id0 ids IH]; intros acc f Hrun.
  - cbn in Hrun. injection Hrun as <- <-. repeat split; auto.
  - rewrite fetch_loop_unfold in Hrun.
    destruct (mail f) as [c|] eqn:Hmail; [|discriminate Hrun].
    cbn zeta in Hrun.
    destruct (srv (fetch_cmd id0 :: trace f)) as [status data|e] eqn:Hans;
      [|discriminate Hrun].
    destruct (String.eqb_spec status "OK") as [->|Hstatus].
    + destruct (parse_fetched _ _ _) as [[msg|e] f2] eqn:Hparse; [|discriminate Hrun].
      apply parse_fetched_returns in Hparse as (-> & a & b & rest & -> & ->).
      apply IH in Hrun as (Ht & Hm & Hnd & Hin). cbn [trace mail] in Ht, Hm, Hin.
      repeat split.
      * rewrite Ht. cbn [map rev]. rewrite <- app_assoc. reflexivity.
      * exact Hm.
      * intros Hacc. apply Hnd, dict_set_NoDup, Hacc.
      * intros id v Hv. destruct (Hin id v Hv) as [Hset | (pre & post & a' & b' & r' & -> & Hs & ->)].
        -- apply dict_set_In in Hset as [[-> ->] | Hold]; [|auto].
           right. exists [], ids, a, b, rest. auto.
        -- right. exists (id0 :: pre), post, a', b', r'. split; [reflexivity|].
           cbn [map rev]. rewrite <- app_assoc. auto.
    + apply IH in Hrun as (Ht & Hm & Hnd & Hin). cbn [trace mail] in Ht, Hm, Hin.
      repeat split.
      * rewrite Ht. cbn [map rev]. rewrite <- app_assoc. reflexivity.
      * exact Hm.
      * exact Hnd.
      * intros id v Hv. destruct (Hin id v Hv) as [Hold | (pre & post & a' & b' & r' & -> & Hs & ->)];
          [auto|].
        right. exists (id0 :: pre), post, a', b', r'. split; [reflexivity|].
        cbn [map rev]. rewrite <- app_assoc. auto.
Qed.

End LoopMore.

(** An entry the loop stored, seen among the calls of the whole run. *)
Lemma entry_fetched_in_run (message_from_bytes : bytes -> Message) (srv : server)
      (p s : list command) (pre post : list bytes) (id a b : bytes)
      (rest : list resp_item) :
  srv (fetch_cmd id :: rev (map fetch_cmd pre) ++ rev p) =
    Returns "OK" (RTuple a b :: rest) ->
  entry_fetched message_from_bytes srv
    (p ++ map fetch_cmd (pre ++ id :: post) ++ s) id
    (summary_of (message_from_bytes b)).
Proof.
  intros Hok.
  exists (p ++ map fetch_cmd pre), (map fetch_cmd post ++ s), a, b, rest.
  repeat split.
  - rewrite map_app. cbn [map]. rewrite <- !app_assoc. reflexivity.
  - rewrite rev_app_distr. exact Hok.
Qed.

Section SummariesMore.

Variables SERVER USER PASSWORD : str.
Variable message_from_bytes : bytes -> Message.
Variable srv : server.

Notation check_unseen := (check_unseen SERVER USER PASSWORD message_from_bytes srv).
Notation search_emails := (search_emails SERVER USER PASSWORD message_from_bytes srv).
Notation opened := (opened SERVER USER PASSWORD).
Notation summary_calls := (summary_calls SERVER USER PASSWORD).

(** The loop and what follows it, from a search that came back. *)
Lemma summary_loop_returns (mailbox : str) (criteria : list str) (ids : list bytes)
      (c : IMAP4) (d : dict) (f' : frame) :
  fetch_loop message_from_bytes srv ids []
    {| trace := CSearch None criteria :: opened mailbox; mail := Some c |} = (Return d, f') ->
  f' = {| trace := rev (map fetch_cmd ids) ++ CSearch None criteria :: opened mailbox;
          mail := Some c |} /\
  CLogout :: trace f' = rev (summary_calls mailbox criteria ids) /\
  NoDup (keys d) /\
  forall id v,
    In (id, v) d ->
    In id ids /\
    entry_fetched message_from_bytes srv (summary_calls mailbox criteria ids) id v.
Proof.
  intros Hrun. apply fetch_loop_returns in Hrun as (Ht & Hm & Hnd & Hin).
  cbn [trace mail] in Ht, Hm, Hin.
  assert (Hf : f' = {| trace := rev (map fetch_cmd ids) ++ CSearch None criteria
                                  :: opened mailbox;
                       mail := Some c |}).
  { destruct f' as [t m]. cbn [trace mail] in Ht, Hm. subst. reflexivity. }
  split; [exact Hf|]. split; [|split].
  - rewrite Hf. cbn [trace]. unfold_calls. rewrite !rev_app_distr. reflexivity.
  - apply Hnd. constructor.
  - intros id v Hv.
    destruct (Hin id v Hv) as [[] | (pre & post & a & b & rest & -> & Hs & ->)].
    split; [apply in_or_app; right; left; reflexivity|].
    unfold_calls.
    apply (entry_fetched_in_run message_from_bytes srv
             [CConnect SERVER; CLogin USER PASSWORD; CSelect mailbox; CSearch None criteria]
             [CLogout] pre post id a b rest).
    exact Hs.
Qed.

(** A [check_unseen] that returned: the search it made, the calls it
    made, and where the entries of its dict come from. *)
Lemma check_unseen_returned (d : dict) :
  outcome check_unseen = Return d ->
  exists status line rest,
    srv (CSearch None ["UNSEEN"] :: opened "INBOX") =
      Returns status (RBytes line :: rest) /\
    calls check_unseen = summary_calls "INBOX" ["UNSEEN"] (bytes_split line) /\
    NoDup (keys d) /\
    forall id v,
      In (id, v) d ->
      In id (bytes_split line) /\
      entry_fetched message_from_bytes srv
        (summary_calls "INBOX" ["UNSEEN"] (bytes_split line)) id v.
Proof.
  unfold_tool. do 4 live_case.
  destruct data2 as [|[|line|] rest]; cbn [index0 item_split trace mail fst snd];
    try dead_end.
  destruct (fetch_loop _ _ _ _ _) as [[acc|e] f'] eqn:Hloop; cbn [trace mail fst snd].
  2:{ apply (f_equal snd) in Hloop. cbn [snd] in Hloop.
      destruct (fetch_loop_frame message_from_bytes srv (bytes_split line) []
                  {| trace := CSearch None ["UNSEEN"] :: opened "INBOX";
                     mail := Some {| host := SERVER |} |}) as (n & _ & Hm).
      unfold_calls. rewrite Hloop in Hm. cbn [mail] in Hm. rewrite Hm. dead_end. }
  apply (summary_loop_returns "INBOX" ["UNSEEN"]) in Hloop as (-> & Hcalls & Hnd & Hin).
  cbn [trace mail] in *.
  live_case.
  intros H. injection H as <-. exists status2, line, rest.
  split; [exact Heqr2|]. split; [|split; assumption].
  unfold_calls. rewrite Hcalls. apply rev_involutive.
Qed.

(** The same for a [search_emails] that returned a dict. *)
Lemma search_emails_returned (criterion value mailbox : str) (d : dict) :
  outcome (search_emails criterion value mailbox) = Return (Matches d) ->
  exists line rest,
    srv (CSearch None [criterion; value] :: opened mailbox) =
      Returns "OK" (RBytes line :: rest) /\
    calls (search_emails criterion value mailbox) =
      summary_calls mailbox [criterion; value] (bytes_split line) /\
    NoDup (keys d) /\
    forall id v,
      In (id, v) d ->
      In id (bytes_split line) /\
      entry_fetched message_from_bytes srv
        (summary_calls mailbox [criterion; value] (bytes_split line)) id v.
Proof.
  unfold_tool. do 4 live_case.
  destruct (String.eqb_spec status2 "OK") as [->|Hne]; cbn [negb];
    [|intros; discriminate].
  destruct data2 as [|[|line|] rest]; cbn [index0 item_split trace mail fst snd];
    try dead_end.
  destruct (fetch_loop _ _ _ _ _) as [[acc|e] f'] eqn:Hloop; cbn [trace mail fst snd].
  2:{ apply (f_equal snd) in Hloop. cbn [snd] in Hloop.
      destruct (fetch_loop_frame message_from_bytes srv (bytes_split line) []
                  {| trace := CSearch None [criterion; value] :: opened mailbox;
                     mail := Some {| host := SERVER |} |}) as (n & _ & Hm).
      unfold_calls. rewrite Hloop in Hm. cbn [mail] in Hm. rewrite Hm. dead_end. }
  apply (summary_loop_returns mailbox [criterion; value]) in Hloop
    as (-> & Hcalls & Hnd & Hin).
  cbn [trace mail] in *.
  live_case.
  intros H. injection H as <-. exists line, rest.
  split; [exact Heqr2|]. split; [|split; assumption].
  unfold_calls. rewrite Hcalls. apply rev_involutive.
Qed.

(** X16. Whatever the server does, when [check_unseen] returns a dict it
    has made exactly these calls: connect, login, select INBOX, search
    UNSEEN, one [(RFC822)] fetch for each id of the line the search
    carried, in the order of the line, and one logout.  The same holds
    for [search_emails] when it returns a dict, with its mailbox and its
    criterion and value, after a search answered [OK]. *)
Theorem summaries_fetch_every_id_in_order :
  (forall d,
      outcome check_unseen = Return d ->
      exists status line rest,
        srv (CSearch None ["UNSEEN"] :: opened "INBOX") =
          Returns status (RBytes line :: rest) /\
        calls check_unseen = summary_calls "INBOX" ["UNSEEN"] (bytes_split line)) /\
  (forall criterion value mailbox d,
      outcome (search_emails criterion value mailbox) = Return (Matches d) ->
      exists line rest,
        srv (CSearch None [criterion; value] :: opened mailbox) =
          Returns "OK" (RBytes line :: rest) /\
        calls (search_emails criterion value mailbox) =
          summary_calls mailbox [criterion; value] (bytes_split line)).
Proof.
  split.
  - intros d Hd.
    destruct (check_unseen_returned d Hd) as (status & line & rest & Hs & Hc & _).
    eauto.
  - intros criterion value mailbox d Hd.
    destruct (search_emails_returned criterion value mailbox d Hd)
      as (line & rest & Hs & Hc & _).
    eauto.
Qed.

(** X17. Whatever the server does, every entry of the dict that
    [check_unseen] or [search_emails] returns belongs to an id that a
    fetch of this invocation reported [OK] for, and holds the Subject and
    Date headers of the message that fetch carried; no id has two
    entries, even when the search names it twice. *)
Theorem summaries_hold_fetched_headers :
  (forall d,
      outcome check_unseen = Return d ->
      NoDup (keys d) /\
      forall id v,
        In (id, v) d ->
        entry_fetched message_from_bytes srv (calls check_unseen) id v) /\
  (forall criterion value mailbox d,
      outcome (search_emails criterion value mailbox) = Return (Matches d) ->
      NoDup (keys d) /\
      forall id v,
        In (id, v) d ->
        entry_fetched message_from_bytes srv
          (calls (search_emails criterion value mailbox)) id v).
Proof.
  split.
  - intros d Hd.
    destruct (check_unseen_returned d Hd) as (status & line & rest & _ & -> & Hnd & Hin).
    split; [exact Hnd|]. intros id v Hv. apply (Hin id v Hv).
  - intros criterion value mailbox d Hd.
    destruct (search_emails_returned criterion value mailbox d Hd)
      as (line & rest & _ & -> & Hnd & Hin).
    split; [exact Hnd|]. intros id v Hv. apply (Hin id v Hv).
Qed.

(** X18. Whatever the server does, [search_emails] returns its list only
    when the search came back with a status other than [OK]; the list is
    the one sentence, and the tool has not logged out. *)
Theorem search_emails_sentinel_only_when_refused
        (criterion value mailbox : str) (l : list str) :
  outcome (search_emails criterion value mailbox) = Return (NoMatch l) ->
  l = ["No matching emails found."] /\
  (exists status data,
      srv (CSearch None [criterion; value] :: opened mailbox) = Returns status data /\
      status <> "OK") /\
  calls (search_emails criterion value mailbox) =
    [CConnect SERVER; CLogin USER PASSWORD; CSelect mailbox;
     CSearch None [criterion; value]].
Proof.
  unfold_tool. do 4 live_case.
  destruct (String.eqb_spec status2 "OK") as [->|Hne]; cbn [negb].
  - dead_end.
  - intros H. injection H as <-. repeat split.
    exists status2, data2. split; [exact Heqr2 | exact Hne].
Qed.

(** X19. When the search comes back with a line that holds no id (empty
    or blank), [check_unseen] returns the empty dict after a logout,
    without any fetch. *)
Theorem check_unseen_nothing_unseen (status : str) (line : bytes) (rest : list resp_item) :
  session_opens SERVER USER PASSWORD srv "INBOX" = true ->
  srv (CSearch None ["UNSEEN"] :: opened "INBOX") = Returns status (RBytes line :: rest) ->
  forallb is_space line = true ->
  answers srv (CLogout :: CSearch None ["UNSEEN"] :: opened "INBOX") = true ->
  outcome check_unseen = Return [] /\
  calls check_unseen =
    [CConnect SERVER; CLogin USER PASSWORD; CSelect "INBOX";
     CSearch None ["UNSEEN"]; CLogout].
Proof.
  intros Hopen Hsearch Hblank Hlogout. known_answers. unfold_tool. run_known.
  cbn [index0 item_split]. rewrite (bytes_split_blank line Hblank).
  cbn [fetch_loop ret trace mail fst snd]. unfold ret. cbn [trace mail fst snd].
  run_known. split; reflexivity.
Qed.

(** X20. When the search comes back with [None] in place of the line of
    ids (no SEARCH response reached [imaplib]), [recent[0].split()]
    raises [AttributeError]: [check_unseen] logs out and raises it,
    without any fetch, and so does [search_emails] after an [OK]. *)
Theorem summaries_without_search_line
        (criterion value mailbox status : str) (rest rest' : list resp_item) :
  session_opens SERVER USER PASSWORD srv "INBOX" = true ->
  srv (CSearch None ["UNSEEN"] :: opened "INBOX") = Returns status (RNone :: rest) ->
  answers srv (CLogout :: CSearch None ["UNSEEN"] :: opened "INBOX") = true ->
  session_opens SERVER USER PASSWORD srv mailbox = true ->
  srv (CSearch None [criterion; value] :: opened mailbox) = Returns "OK" (RNone :: rest') ->
  answers srv (CLogout :: CSearch None [criterion; value] :: opened mailbox) = true ->
  (outcome check_unseen = Raise AttributeError /\
   calls check_unseen =
     [CConnect SERVER; CLogin USER PASSWORD; CSelect "INBOX";
      CSearch None ["UNSEEN"]; CLogout]) /\
  (outcome (search_emails criterion value mailbox) = Raise AttributeError /\
   calls (search_emails criterion value mailbox) =
     [CConnect SERVER; CLogin USER PASSWORD; CSelect mailbox;
      CSearch None [criterion; value]; CLogout]).
Proof.
  intros. known_answers. split; unfold_tool; run_known;
    cbn [String.eqb Ascii.eqb Bool.eqb negb index0 item_split trace mail fst snd];
    run_known; split; reflexivity.
Qed.

End SummariesMore.

(* ===================================================================== *)
(** ** The further statements at work on the sample servers *)
(* ===================================================================== *)

Lemma logout_exactly_once_witness :
  answers wrong_password [CConnect HOST] = true /\
  logouts (calls (delete_email HOST ALICE SECRET wrong_password "7" "INBOX")) = 1 /\
  logouts (calls (move_email HOST ALICE SECRET wrong_password "7" "Archive")) = 1 /\
  logouts (calls (list_mailboxes HOST ALICE SECRET wrong_password)) = 1 /\
  logouts (calls (check_unseen HOST ALICE SECRET sample_parser wrong_password)) = 1.
Proof.
  split; [reflexivity|].
  apply (logout_exactly_once HOST ALICE SECRET sample_parser wrong_password
           "7" "INBOX" "Archive").
  - reflexivity.
  - intros h. reflexivity.
Defined.

Lemma failed_logout_is_repeated_witness :
  drops_at_logout
    (CLogout :: CExpunge :: CStore (IdStr "7") "+FLAGS" "(DELETED)"
       :: opened HOST ALICE SECRET "INBOX") = Raises (IMAPAbort "socket error: EOF") /\
  outcome (delete_email HOST ALICE SECRET drops_at_logout "7" "INBOX") =
    Raise (IMAPAbort "socket error: EOF") /\
  calls (delete_email HOST ALICE SECRET drops_at_logout "7" "INBOX") =
    [CConnect HOST; CLogin ALICE SECRET; CSelect "INBOX";
     CStore (IdStr "7") "+FLAGS" "(DELETED)"; CExpunge; CLogout; CLogout].
Proof.
  split; [reflexivity|].
  apply (failed_logout_is_repeated HOST ALICE SECRET drops_at_logout "7" "INBOX");
    reflexivity.
Defined.

Lemma login_failure_is_reported_witness :
  wrong_password [CLogin ALICE SECRET; CConnect HOST] =
    Raises (IMAPError "[AUTHENTICATIONFAILED] Invalid credentials") /\
  outcome (list_mailboxes HOST ALICE SECRET wrong_password) =
    Raise (IMAPError "[AUTHENTICATIONFAILED] Invalid credentials") /\
  calls (list_mailboxes HOST ALICE SECRET wrong_password) =
    [CConnect HOST; CLogin ALICE SECRET; CLogout].
Proof.
  split; [reflexivity|].
  pose proof (login_failure_is_reported HOST ALICE SECRET sample_parser identity_decode
                wrong_password
                (IMAPError "[AUTHENTICATIONFAILED] Invalid credentials")
                eq_refl eq_refl eq_refl) as (_ & _ & _ & Hlist & _).
  exact Hlist.
Defined.

Lemma mutation_errors_come_from_the_failed_call_witness :
  outcome (delete_email HOST ALICE SECRET store_fails "7" "INBOX") =
    Raise (IMAPError "STORE command error: BAD [b'Read-only']") /\
  exists c h,
    store_fails (c :: h) = Raises (IMAPError "STORE command error: BAD [b'Read-only']") /\
    calls (delete_email HOST ALICE SECRET store_fails "7" "INBOX") =
      rev (c :: h) ++ [CLogout].
Proof.
  split; [reflexivity|].
  apply (proj1 (mutation_errors_come_from_the_failed_call HOST ALICE SECRET store_fails
                  "7" "INBOX" "Archive"
                  (IMAPError "STORE command error: BAD [b'Read-only']")
                  eq_refl (fun h => eq_refl))).
  reflexivity.
Defined.

Lemma delete_email_reports_success_witness :
  store_refused (CStore (IdStr "7") "+FLAGS" "(DELETED)" :: opened HOST ALICE SECRET "INBOX") =
    Returns "NO" [RBytes (b_ "Mailbox is read-only")] /\
  outcome (delete_email HOST ALICE SECRET store_refused "7" "INBOX") =
    Return {| d_status := "success"; d_email_id := "7"; d_mailbox := "INBOX" |} /\
  calls (delete_email HOST ALICE SECRET store_refused "7" "INBOX") =
    [CConnect HOST; CLogin ALICE SECRET; CSelect "INBOX";
     CStore (IdStr "7") "+FLAGS" "(DELETED)"; CExpunge; CLogout].
Proof.
  split; [reflexivity|].
  apply (delete_email_reports_success HOST ALICE SECRET store_refused "7" "INBOX").
  intros [|[] h]; reflexivity.
Defined.

Lemma view_email_returns_the_parsed_message_witness :
  outcome (view_email HOST ALICE SECRET sample_parser identity_decode friendly
                      "1" "INBOX") =
    Return {| v_subject := Some "Hello"; v_from := Some "bob@example.org";
              v_body := "hello"; v_type := "text/plain" |} /\
  outcome (view_email HOST ALICE SECRET sample_parser identity_decode latin1_message
                      "1" "INBOX") = Raise UnicodeDecodeError /\
  logouts (calls (view_email HOST ALICE SECRET sample_parser identity_decode
                             latin1_message "1" "INBOX")) = 1.
Proof.
  split.
  - exact (proj1 (view_email_returns_the_parsed_message HOST ALICE SECRET sample_parser
                    identity_decode friendly "1" "INBOX"
                    (b_ "1 (RFC822 {5}") (b_ "hello") [RBytes (b_ ")")]
                    eq_refl eq_refl)
                 "hello" "text/plain" eq_refl).
  - exact (proj2 (view_email_returns_the_parsed_message HOST ALICE SECRET sample_parser
                    identity_decode latin1_message "1" "INBOX"
                    (b_ "1 (RFC822 {4}") [x63; x61; x66; xe9] []
                    eq_refl eq_refl)
                 UnicodeDecodeError eq_refl eq_refl).
Defined.

Lemma view_email_of_an_absent_message_witness :
  absent_message (CFetch (IdStr "99") "(RFC822)" :: opened HOST ALICE SECRET "INBOX") =
    Returns "OK" [RNone] /\
  outcome (view_email HOST ALICE SECRET sample_parser identity_decode absent_message
                      "99" "INBOX") = Raise TypeError /\
  calls (view_email HOST ALICE SECRET sample_parser identity_decode absent_message
                    "99" "INBOX") =
    [CConnect HOST; CLogin ALICE SECRET; CSelect "INBOX";
     CFetch (IdStr "99") "(RFC822)"; CLogout].
Proof.
  split; [reflexivity|].
  apply (view_email_of_an_absent_message HOST ALICE SECRET sample_parser identity_decode
           absent_message "99" "INBOX" []); reflexivity.
Defined.

Lemma list_mailboxes_one_name_per_line_witness :
  outcome (list_mailboxes HOST ALICE SECRET two_mailboxes) =
    Return [quoted "INBOX"; quoted "SentItems"] /\
  exists status data,
    two_mailboxes [CList; CLogin ALICE SECRET; CConnect HOST] = Returns status data /\
    Forall2 (fun item name => mailbox_of_item item = Return name) data
            [quoted "INBOX"; quoted "SentItems"] /\
    Forall (fun name => space_free name = true) [quoted "INBOX"; quoted "SentItems"].
Proof.
  split; [reflexivity|].
  exact (list_mailboxes_one_name_per_line HOST ALICE SECRET two_mailboxes
           [quoted "INBOX"; quoted "SentItems"] eq_refl).
Defined.

Lemma list_mailboxes_without_separator_witness :
  slash_delimiter [CList; CLogin ALICE SECRET; CConnect HOST] =
    Returns "OK"
      [RBytes (b_ ("(\HasNoChildren) " ++ quoted "/" ++ " " ++ quoted "INBOX")%string)] /\
  outcome (list_mailboxes HOST ALICE SECRET slash_delimiter) = Raise IndexError /\
  calls (list_mailboxes HOST ALICE SECRET slash_delimiter) =
    [CConnect HOST; CLogin ALICE SECRET; CList; CLogout].
Proof.
  split; [reflexivity|].
  apply (list_mailboxes_without_separator HOST ALICE SECRET slash_delimiter "OK"
           (b_ ("(\HasNoChildren) " ++ quoted "/" ++ " " ++ quoted "INBOX")%string) []);
    reflexivity.
Defined.

Lemma summaries_fetch_every_id_in_order_witness :
  outcome (check_unseen HOST ALICE SECRET sample_parser one_vanished) =
    Return [(b_ "1", summary_of (sample_parser (b_ "hello")))] /\
  exists status line rest,
    one_vanished (CSearch None ["UNSEEN"] :: opened HOST ALICE SECRET "INBOX") =
      Returns status (RBytes line :: rest) /\
    calls (check_unseen HOST ALICE SECRET sample_parser one_vanished) =
      summary_calls HOST ALICE SECRET "INBOX" ["UNSEEN"] (bytes_split line).
Proof.
  split; [reflexivity|].
  exact (proj1 (summaries_fetch_every_id_in_order HOST ALICE SECRET sample_parser
                  one_vanished) _ eq_refl).
Defined.

Lemma summaries_hold_fetched_headers_witness :
  outcome (check_unseen HOST ALICE SECRET sample_parser repeated_id) =
    Return [(b_ "1", summary_of (sample_parser (b_ "hello")))] /\
  NoDup (keys [(b_ "1", summary_of (sample_parser (b_ "hello")))]) /\
  forall id v,
    In (id, v) [(b_ "1", summary_of (sample_parser (b_ "hello")))] ->
    entry_fetched sample_parser repeated_id
      (calls (check_unseen HOST ALICE SECRET sample_parser repeated_id)) id v.
Proof.
  split; [reflexivity|].
  exact (proj1 (summaries_hold_fetched_headers HOST ALICE SECRET sample_parser
                  repeated_id) _ eq_refl).
Defined.

Lemma search_emails_sentinel_only_when_refused_witness :
  outcome (search_emails HOST ALICE SECRET sample_parser refusing
                         "SINCE" "yesterday" "INBOX") =
    Return (NoMatch ["No matching emails found."]) /\
  (exists status data,
      refusing (CSearch None ["SINCE"; "yesterday"] :: opened HOST ALICE SECRET "INBOX") =
        Returns status data /\
      status <> "OK") /\
  calls (search_emails HOST ALICE SECRET sample_parser refusing
                       "SINCE" "yesterday" "INBOX") =
    [CConnect HOST; CLogin ALICE SECRET; CSelect "INBOX";
     CSearch None ["SINCE"; "yesterday"]].
Proof.
  split; [reflexivity|].
  exact (proj2 (search_emails_sentinel_only_when_refused HOST ALICE SECRET sample_parser
                  refusing "SINCE" "yesterday" "INBOX" _ eq_refl)).
Defined.

Lemma check_unseen_nothing_unseen_witness :
  nothing_matches (CSearch None ["UNSEEN"] :: opened HOST ALICE SECRET "INBOX") =
    Returns "OK" [RBytes []] /\
  outcome (check_unseen HOST ALICE SECRET sample_parser nothing_matches) = Return [] /\
  calls (check_unseen HOST ALICE SECRET sample_parser nothing_matches) =
    [CConnect HOST; CLogin ALICE SECRET; CSelect "INBOX";
     CSearch None ["UNSEEN"]; CLogout].
Proof.
  split; [reflexivity|].
  apply (check_unseen_nothing_unseen HOST ALICE SECRET sample_parser nothing_matches
           "OK" [] []); reflexivity.
Defined.

Lemma summaries_without_search_line_witness :
  no_search_response (CSearch None ["UNSEEN"] :: opened HOST ALICE SECRET "INBOX") =
    Returns "OK" [RNone] /\
  outcome (check_unseen HOST ALICE SECRET sample_parser no_search_response) =
    Raise AttributeError /\
  outcome (search_emails HOST ALICE SECRET sample_parser no_search_response
                         "FROM" "bob" "Archive") = Raise AttributeError.
Proof.
  split; [reflexivity|].
  pose proof (summaries_without_search_line HOST ALICE SECRET sample_parser
                no_search_response "FROM" "bob" "Archive" "OK" [] []
                eq_refl eq_refl eq_refl eq_refl eq_refl eq_refl)
    as ((Hunseen & _) & (Hsearch & _)).
  split; [exact Hunseen | exact Hsearch].
Defined.

(* ===================================================================== *)
(** ** What the summary tools fetch and what they keep *)
(* ===================================================================== *)

Section WholeMessages.

Variables SERVER USER PASSWORD : str.
Variable message_from_bytes : bytes -> Message.
Variable transfer_decode : str -> bytes -> bytes.
Variable srv : server.

Notation view_email :=
  (view_email SERVER USER PASSWORD message_from_bytes transfer_decode srv).
Notation check_unseen := (check_unseen SERVER USER PASSWORD message_from_bytes srv).
Notation search_emails := (search_emails SERVER USER PASSWORD message_from_bytes srv).
Notation opened := (opened SERVER USER PASSWORD).
Notation summary_calls := (summary_calls SERVER USER PASSWORD).

(** A [view_email] that returned has fetched [(RFC822)] for its id. *)
Lemma view_email_fetches_rfc822 (email_id mailbox : str) (r : ViewResult) :
  outcome (view_email email_id mailbox) = Return r ->
  In (CFetch (IdStr email_id) "(RFC822)") (calls (view_email email_id mailbox)).
Proof.
  unfold_tool. repeat next_case; intros H; try discriminate H.
  cbn [rev app In]. auto 6.
Qed.

(** C5, as the code has it.  Whatever the server does, when
    [check_unseen] (and [search_emails], identically) returns its dict it
    has fetched, for every id of the line the search returned, the whole
    message: item [(RFC822)], which is not a headers-only item and is
    the item [view_email] fetches to read the body.  What each entry of
    the dict holds is only the Subject and Date headers parsed from the
    message such a fetch of its id carried. *)
Theorem summaries_fetch_whole_messages :
  headers_only "(RFC822)" = false /\
  (forall email_id mailbox r,
      outcome (view_email email_id mailbox) = Return r ->
      In (CFetch (IdStr email_id) "(RFC822)") (calls (view_email email_id mailbox))) /\
  (forall d,
      outcome check_unseen = Return d ->
      exists status line rest,
        srv (CSearch None ["UNSEEN"] :: opened "INBOX") =
          Returns status (RBytes line :: rest) /\
        calls check_unseen = summary_calls "INBOX" ["UNSEEN"] (bytes_split line) /\
        (forall id,
            In id (bytes_split line) ->
            In (CFetch (IdBytes id) "(RFC822)") (calls check_unseen)) /\
        (forall id v,
            In (id, v) d ->
            In id (bytes_split line) /\
            entry_fetched message_from_bytes srv (calls check_unseen) id v)) /\
  (forall criterion value mailbox d,
      outcome (search_emails criterion value mailbox) = Return (Matches d) ->
      exists line rest,
        srv (CSearch None [criterion; value] :: opened mailbox) =
          Returns "OK" (RBytes line :: rest) /\
        calls (search_emails criterion value mailbox) =
          summary_calls mailbox [criterion; value] (bytes_split line) /\
        (forall id,
            In id (bytes_split line) ->
            In (CFetch (IdBytes id) "(RFC822)")
               (calls (search_emails criterion value mailbox))) /\
        (forall id v,
            In (id, v) d ->
            In id (bytes_split line) /\
            entry_fetched message_from_bytes srv
              (calls (search_emails criterion value mailbox)) id v)).
Proof.
  split; [reflexivity|]. split; [exact view_email_fetches_rfc822|]. split.
  - intros d Hd.
    destruct (check_unseen_returned SERVER USER PASSWORD message_from_bytes srv d Hd)
      as (status & line & rest & Hs & Hc & _ & Hin).
    exists status, line, rest. rewrite Hc. repeat split; try assumption; try apply (Hin id v H).
    intros id Hid. unfold_calls. apply in_or_app. right. apply in_or_app. left.
    apply (in_map fetch_cmd _ _ Hid).
  - intros criterion value mailbox d Hd.
    destruct (search_emails_returned SERVER USER PASSWORD message_from_bytes srv
                criterion value mailbox d Hd)
      as (line & rest & Hs & Hc & _ & Hin).
    exists line, rest. rewrite Hc. repeat split; try assumption; try apply (Hin id v H).
    intros id Hid. unfold_calls. apply in_or_app. right. apply in_or_app. left.
    apply (in_map fetch_cmd _ _ Hid).
Qed.

End WholeMessages.

Lemma summaries_fetch_whole_messages_witness :
  outcome (check_unseen HOST ALICE SECRET sample_parser friendly) =
    Return [(b_ "1", summary_of (sample_parser (b_ "hello")));
            (b_ "2", summary_of (sample_parser (b_ "hello")))] /\
  exists status line rest,
    friendly (CSearch None ["UNSEEN"] :: opened HOST ALICE SECRET "INBOX") =
      Returns status (RBytes line :: rest) /\
    calls (check_unseen HOST ALICE SECRET sample_parser friendly) =
      summary_calls HOST ALICE SECRET "INBOX" ["UNSEEN"] (bytes_split line) /\
    (forall id,
        In id (bytes_split line) ->
        In (CFetch (IdBytes id) "(RFC822)")
           (calls (check_unseen HOST ALICE SECRET sample_parser friendly))) /\
    (forall id v,
        In (id, v) [(b_ "1", summary_of (sample_parser (b_ "hello")));
                    (b_ "2", summary_of (sample_parser (b_ "hello")))] ->
        In id (bytes_split line) /\
        entry_fetched sample_parser friendly
          (calls (check_unseen HOST ALICE SECRET sample_parser friendly)) id v).
Proof.
  split; [reflexivity|].
  exact (proj1 (proj2 (proj2 (summaries_fetch_whole_messages HOST ALICE SECRET
                                sample_parser identity_decode friendly)))
               _ eq_refl).
Defined.

(* ===================================================================== *)
(** ** The name [list_mailboxes] makes of one line *)
(* ===================================================================== *)




Section OneLine.

Variables SERVER USER PASSWORD : str.
Variable srv : server.


End OneLine.

